(** * ColorManager: the terminal colour model of xterm.js

    A shallow embedding of [src/browser/ColorManager.ts]: the default ANSI
    palette, the colour-string validation through a one-pixel canvas, theme
    application and colour restoration, followed by the properties of the
    specification that were checked against it. *)

From Stdlib Require Import ZArith QArith Qround List String Ascii Bool Lia Lqa.
From Stdlib Require Import Strings.Byte.
Import ListNotations.
Local Open Scope Z_scope.

(** ** JavaScript values used by the file *)

(** A JS [number] in the arithmetic the source does on its own literals: an
    exact rational, or [NaN].  On the values formed there (a small integer
    divided by 36 or by 6, the literal 0.3 times 255) double arithmetic
    followed by [| 0] or [Math.round] gives the integer that exact
    arithmetic gives, so the rationals stand for the doubles; infinities
    never arise.  The numbers read out of text the host wrote are doubles
    proper, see [Double] below. *)
Inductive number : Type :=
  | Num (q : Q)
  | NaN.

Definition Qtrunc (q : Q) : Z := Z.quot (Qnum q) (Z.pos (Qden q)).

(** [ToInt32]: truncate, wrap to 32 bits, read as signed; [NaN] gives 0. *)
Definition int32 (z : Z) : Z := (z + 2 ^ 31) mod 2 ^ 32 - 2 ^ 31.

Definition ToInt32 (x : number) : Z :=
  match x with
  | Num q => int32 (Qtrunc q)
  | NaN => 0
  end.

(** [ToUint32], the effect of [x >>> 0]. *)
Definition uint32 (z : Z) : Z := z mod 2 ^ 32.

(** [a / b] on numbers that hold integers ([b] is a non-zero literal here). *)
Definition js_div (a b : Z) : number := Num (inject_Z a / inject_Z b).

(** [x % m] for a positive integer literal [m]: the remainder has the sign of
    the dividend, [x - m * trunc (x / m)]. *)
Definition js_rem (x : number) (m : Z) : number :=
  match x with
  | Num q => Num (q - inject_Z m * inject_Z (Qtrunc (q / inject_Z m)))
  | NaN => NaN
  end.

(** [x * k] for an integer literal [k]. *)
Definition js_mul (x : number) (k : Z) : number :=
  match x with
  | Num q => Num (q * inject_Z k)
  | NaN => NaN
  end.

(** [Math.round]: the nearest integer, ties towards +infinity. *)
Definition Math_round (x : number) : number :=
  match x with
  | Num q => Num (inject_Z (Qfloor (q + (1 # 2))))
  | NaN => NaN
  end.

(** *** Doubles

    The numbers [_parseColor] reads out of a serialised colour come from
    text the host wrote, so they are modelled as what they are, IEEE 754
    binary64 values: [NaN], the two infinities, and the finite values, each
    a sign and a magnitude.  A magnitude is the rational [m * 2 ^ e] of a
    53-bit [m] and an [e] from -1074 to 971; the two zeros are the
    magnitude 0 under either sign. *)
Module Double.

Inductive t : Type :=
  | NaN
  | Infinity (negative : bool)
  | Finite (negative : bool) (magnitude : Q).

(** [2 ^ k] for an integer [k] of either sign. *)
Definition pow2 (k : Z) : Q :=
  if 0 <=? k then inject_Z (2 ^ k) else 1 # Z.to_pos (2 ^ (- k)).

(** The integer nearest to [x], the even one of the two when [x] is half
    way between them. *)
Definition nearest_even (x : Q) : Z :=
  let f := Qfloor x in
  match (x - inject_Z f ?= 1 # 2)%Q with
  | Lt => f
  | Gt => f + 1
  | Eq => if Z.even f then f else f + 1
  end.

(** For [q > 0], the [k] with [2 ^ k <= q < 2 ^ (k + 1)]. *)
Definition ilog2 (q : Q) : Z :=
  let k := Z.log2 (Qnum q) - Z.log2 (Z.pos (Qden q)) in
  if Qle_bool (pow2 k) q then k else k - 1.

(** The exponent of the last place of the doubles around [q > 0]: 53
    significant bits, the subnormals ending at [2 ^ -1074]. *)
Definition ulp_exponent (q : Q) : Z := Z.max (ilog2 q - 52) (- 1074).

(** The Number value for the magnitude [q >= 0]: the double nearest to it,
    ties to the even significand; from [2 ^ 1024] on, an infinity. *)
Definition nearest (negative : bool) (q : Q) : t :=
  if Qnum q =? 0 then Finite negative 0
  else
    let e := ulp_exponent q in
    let m := nearest_even (q / pow2 e) in
    if Qle_bool (pow2 1024) (inject_Z m * pow2 e) then Infinity negative
    else Finite negative (Qred (inject_Z m * pow2 e)).

(** The number an integer literal of the source stands for. *)
Definition of_Z (z : Z) : t := nearest (z <? 0) (inject_Z (Z.abs z)).

(** The real number a finite double stands for. *)
Definition value (negative : bool) (magnitude : Q) : Q :=
  if negative then - magnitude else magnitude.

(** [x * y] *)
Definition mul (x y : t) : t :=
  match x, y with
  | NaN, _ | _, NaN => NaN
  | Infinity s, Infinity s' => Infinity (xorb s s')
  | Infinity s, Finite s' q | Finite s q, Infinity s' =>
      if Qnum q =? 0 then NaN else Infinity (xorb s s')
  | Finite s q, Finite s' q' => nearest (xorb s s') (q * q')
  end.

(** [Math.round(x)]: [x] itself when it is not finite; otherwise the
    integer nearest to it, the greater one at a tie; a result of zero
    keeps the sign of [x]. *)
Definition Math_round (x : t) : t :=
  match x with
  | Finite s q =>
      let n := Qfloor (value s q + (1 # 2)) in
      if n =? 0 then Finite s 0
      else Finite (n <? 0) (inject_Z (Z.abs n))
  | _ => x
  end.

(** [ToInt32], as applied by [<<] and [|]: 0 for [NaN] and the infinities,
    else truncate, wrap to 32 bits, read as signed. *)
Definition ToInt32 (x : t) : Z :=
  match x with
  | Finite s q => int32 (Qtrunc (value s q))
  | _ => 0
  end.

End Double.

Arguments Double.nearest : simpl never.
Arguments Double.mul : simpl never.
Arguments Double.Math_round : simpl never.
Arguments Double.ToInt32 : simpl never.

(** *** Strings *)

(** A string is the sequence of its code units, which are below 256 in
    this model.  [is_space]: the white space and line terminators among
    them, TAB to CR, the space and the no-break space. *)
Definition is_space (c : ascii) : bool :=
  let n := nat_of_ascii c in
  orb (orb (Nat.eqb n 32) (Nat.eqb n 160)) (andb (Nat.leb 9 n) (Nat.leb n 13)).

Fixpoint ltrim (s : string) : string :=
  match s with
  | String c r => if is_space c then ltrim r else s
  | EmptyString => EmptyString
  end.

Fixpoint string_rev_onto (s acc : string) : string :=
  match s with
  | String c r => string_rev_onto r (String c acc)
  | EmptyString => acc
  end.

Definition string_rev (s : string) : string := string_rev_onto s EmptyString.

Definition trim (s : string) : string :=
  string_rev (ltrim (string_rev (ltrim s))).

Definition digit_of (c : ascii) : option Z :=
  let n := nat_of_ascii c in
  if andb (Nat.leb 48 n) (Nat.leb n 57) then Some (Z.of_nat n - 48) else None.

(** Reads a run of decimal digits: the value read, the number of digits and
    the rest of the string. *)
Fixpoint read_digits (s : string) (acc : Z) (count : nat) : Z * nat * string :=
  match s with
  | String c r =>
      match digit_of c with
      | Some d => read_digits r (10 * acc + d) (S count)
      | None => (acc, count, s)
      end
  | EmptyString => (acc, count, s)
  end.

(** The value of the character [c] as a digit in the given radix. *)
Definition digit_in (radix : Z) (c : ascii) : option Z :=
  let n := Z.of_nat (nat_of_ascii c) in
  let d := if andb (48 <=? n) (n <=? 57) then n - 48
           else if andb (97 <=? n) (n <=? 102) then n - 87
           else if andb (65 <=? n) (n <=? 70) then n - 55
           else radix in
  if d <? radix then Some d else None.

Fixpoint read_radix (radix : Z) (s : string) (acc : Z) : option Z :=
  match s with
  | EmptyString => Some acc
  | String c r =>
      match digit_in radix c with
      | Some d => read_radix radix r (radix * acc + d)
      | None => None
      end
  end.

(** [NonDecimalIntegerLiteral]: [0x], [0o] or [0b], in either case, and at
    least one digit of that radix. *)
Definition non_decimal_literal (s : string) : option Z :=
  match s with
  | String "0" (String k (String _ _ as digits)) =>
      match k with
      | "x" | "X" => read_radix 16 digits 0
      | "o" | "O" => read_radix 8 digits 0
      | "b" | "B" => read_radix 2 digits 0
      | _ => None
      end%char
  | _ => None
  end.

(** [ExponentPart], if any: [e] or [E], an optional sign, digits. *)
Definition exponent_part (s : string) : option Z :=
  match s with
  | EmptyString => Some 0
  | String c r =>
      if orb (Ascii.eqb c "e") (Ascii.eqb c "E") then
        let '(negative, digits) :=
          match r with
          | String "-" t => (true, t)
          | String "+" t => (false, t)
          | _ => (false, r)
          end in
        match read_digits digits 0 0%nat with
        | (_, O, _) => None
        | (n, S _, EmptyString) => Some (if negative then - n else n)
        | (_, S _, String _ _) => None
        end
      else None
  end.

(** [10 ^ k] for an integer [k] of either sign. *)
Definition pow10 (k : Z) : Q :=
  if 0 <=? k then inject_Z (10 ^ k) else 1 # Z.to_pos (10 ^ (- k)).

(** The mathematical value of a [StrUnsignedDecimalLiteral] other than
    [Infinity]: digits, with a fraction or not, of which the integer part
    or the fraction digits may be left out but not both, then the exponent
    part. *)
Definition decimal_literal (s : string) : option Q :=
  let '(ip, ni, rest) := read_digits s 0 0%nat in
  let '(fp, nf, rest') :=
    match rest with
    | String "." t => read_digits t 0 0%nat
    | _ => (0, 0%nat, rest)
    end in
  if Nat.eqb (ni + nf) 0 then None
  else
    match exponent_part rest' with
    | Some ex =>
        Some ((inject_Z ip + inject_Z fp / inject_Z (10 ^ Z.of_nat nf))
              * pow10 ex)%Q
    | None => None
    end.

Definition unsigned_decimal (negative : bool) (s : string) : Double.t :=
  if String.eqb s "Infinity" then Double.Infinity negative
  else
    match decimal_literal s with
    | Some q => Double.nearest negative q
    | None => Double.NaN
    end.

(** [Number(s)], the language's [StringToNumber]: white space around the
    literal is dropped; the empty string is 0; a literal is a decimal one,
    signed or not, with [Infinity] among them, or an unsigned binary, octal
    or hexadecimal integer; anything else is [NaN].  The value is rounded
    to the nearest double, as the engines do for a literal of any length
    (past 20 significant digits the language also allows rounding from the
    first 20). *)
Definition Number (s : string) : Double.t :=
  match trim s with
  | EmptyString => Double.Finite false 0
  | String "-" r => unsigned_decimal true r
  | String "+" r => unsigned_decimal false r
  | String _ _ as t =>
      match non_decimal_literal t with
      | Some n => Double.nearest false (inject_Z n)
      | None => unsigned_decimal false t
      end
  end.

Arguments Number : simpl never.

(** [s.substring(start, end)]: both ends are clamped to the string and
    swapped when they come in the wrong order. *)
Definition js_substring (s : string) (start stop : Z) : string :=
  let len := Z.of_nat (String.length s) in
  let clamp := fun z => Z.max 0 (Z.min z len) in
  let a := Z.min (clamp start) (clamp stop) in
  let b := Z.max (clamp start) (clamp stop) in
  String.substring (Z.to_nat a) (Z.to_nat (b - a)) s.

(** [s.split(",")]: the pieces between the commas, at least one piece. *)
Fixpoint split_on (sep : ascii) (s : string) (cur : string) : list string :=
  match s with
  | EmptyString => [string_rev cur]
  | String c r =>
      if Ascii.eqb c sep then string_rev cur :: split_on sep r EmptyString
      else split_on sep r (String c cur)
  end.

Definition js_split_comma (s : string) : list string :=
  split_on "," s EmptyString.


(** *** Arrays *)

(** A JS array of [A]: reading past the end or at a hole gives [undefined],
    written [None]. *)
Definition js_get {A} (l : list (option A)) (i : nat) : option A :=
  nth i l None.

(** [l[i] = v] for an array index [i], that is [i < 2 ^ 32 - 1]: inside the
    array the element is replaced; past the end the array grows, the
    positions in between staying empty.  (At a larger [i] the assignment
    makes a property that is no element and leaves [length] as it is; a
    list has no place for it.) *)
Fixpoint js_set {A} (l : list (option A)) (i : nat) (v : option A)
  : list (option A) :=
  match l, i with
  | [], O => [v]
  | [], S i' => None :: js_set [] i' v
  | _ :: t, O => v :: t
  | x :: t, S i' => x :: js_set t i' v
  end.

(** ** Colours *)

(** [IColor] of [common/Types]: a CSS string and the packed [0xRRGGBBAA]. *)
Record IColor : Type := mkColor { css : string; rgba : Z }.

(** Modelled from the spec: [channels.toRgba] of [common/Color], which is
    outside [browser/ColorManager.ts].  The specification gives its signature,
    [toRgba(r, g, b[, a]) -> uint32], and the layout of the result, a packed
    [0xRRGGBBAA]; an absent alpha makes an opaque colour. *)
Definition toRgba (r g b : Z) (a : option Z) : Z :=
  let alpha := match a with Some x => x | None => 255 end in
  uint32 (Z.lor (Z.lor (Z.lor (Z.shiftl r 24) (Z.shiftl g 16)) (Z.shiftl b 8))
                alpha).

(** The four channels of a packed colour. *)
Definition red (x : Z) : Z := Z.land (Z.shiftr x 24) 255.
Definition green (x : Z) : Z := Z.land (Z.shiftr x 16) 255.
Definition blue (x : Z) : Z := Z.land (Z.shiftr x 8) 255.
Definition alpha (x : Z) : Z := Z.land x 255.

(** Modelled from the spec: [color.isOpaque] of [common/Color], the "is
    opaque" test of the colour arithmetic library: the alpha channel is
    [0xFF]. *)
Definition isOpaque (c : IColor) : bool := alpha (rgba c) =? 255.

(** Modelled from the spec: [ColorContrastCache] of
    [browser/ColorContrastCache], a mapping keyed by a pair of colours to a
    cached contrast result, with [clear], [get] and [set].  Keys are the
    packed values of the two colours. *)
Definition ColorContrastCache : Type := list ((Z * Z) * IColor).

Definition cache_clear (c : ColorContrastCache) : ColorContrastCache := [].

Definition cache_set (bg fg : Z) (v : IColor) (c : ColorContrastCache)
  : ColorContrastCache :=
  ((bg, fg), v) :: c.

Fixpoint cache_get (bg fg : Z) (c : ColorContrastCache) : option IColor :=
  match c with
  | [] => None
  | ((b, f), v) :: t =>
      if andb (b =? bg) (f =? fg) then Some v else cache_get bg fg t
  end.

(** ** The validation surface

    The manager owns a 1x1 canvas whose 2D context stays in the ['copy']
    compositing mode, so [fillRect] replaces the pixel by the fill colour.
    What the host makes of a colour string is the environment's business:
    it either rejects the string or resolves it to a colour, of which the
    manager sees the serialised form (reading [fillStyle] back) and the
    pixel it paints. *)

Record ImageData : Type :=
  mkData { data0 : byte; data1 : byte; data2 : byte; data3 : byte }.

Definition u8 (b : byte) : Z := Z.of_N (Byte.to_N b).

Record Resolved : Type :=
  mkResolved { serialized : string; rendered : ImageData }.

(** The values [fillStyle] takes: the context's initial black, the litmus
    gradient [_litmusColor], or a colour the host resolved. *)
Inductive FillStyle : Type :=
  | FS_initial
  | FS_litmus
  | FS_color (r : Resolved).

Record CanvasRenderingContext2D : Type :=
  mkCtx { fillStyle : FillStyle; pixel : ImageData }.

Definition fresh_context : CanvasRenderingContext2D :=
  {| fillStyle := FS_initial; pixel := mkData x00 x00 x00 x00 |}.

(** Reading [fillStyle]: a string for a colour, an object for the gradient. *)
Definition fillStyle_string (c : CanvasRenderingContext2D) : option string :=
  match fillStyle c with
  | FS_initial => Some "#000000"%string
  | FS_litmus => None
  | FS_color r => Some (serialized r)
  end.

(** [fillRect(0, 0, 1, 1)] in ['copy'] mode.  The litmus gradient has no
    colour stop and paints transparent black. *)
Definition painted (c : CanvasRenderingContext2D) : ImageData :=
  match fillStyle c with
  | FS_initial => mkData x00 x00 x00 xff
  | FS_litmus => mkData x00 x00 x00 x00
  | FS_color r => rendered r
  end.

(** ** Themes and the colour set *)

Module Theme.
(** [ITheme] of [common/services/Services]: every field is optional. *)
Record ITheme : Type := mk {
  foreground : option string;
  background : option string;
  cursor : option string;
  cursorAccent : option string;
  selection : option string;
  selectionForeground : option string;
  black : option string;
  red : option string;
  green : option string;
  yellow : option string;
  blue : option string;
  magenta : option string;
  cyan : option string;
  white : option string;
  brightBlack : option string;
  brightRed : option string;
  brightGreen : option string;
  brightYellow : option string;
  brightBlue : option string;
  brightMagenta : option string;
  brightCyan : option string;
  brightWhite : option string;
  extendedAnsi : option (list string)
}.

(** The theme [{}]. *)
Definition empty : ITheme :=
  mk None None None None None None None None None None None None None None
     None None None None None None None None None.
End Theme.
Definition ITheme : Type := Theme.ITheme.

(** [IColorSet] of [browser/Types].  Its [contrastCache] field is a second
    reference to the manager's own [_contrastCache] object and is read
    through the manager below.  [ansi] is a JS array: [None] stands for
    [undefined]. *)
Record IColorSet : Type := mkColorSet {
  foreground : IColor;
  background : IColor;
  cursor : IColor;
  cursorAccent : IColor;
  selectionTransparent : IColor;
  selectionOpaque : IColor;
  selectionForeground : option IColor;
  ansi : list (option IColor)
}.

Module Restore.
Record IRestoreColorSet : Type := mk {
  foreground : IColor;
  background : IColor;
  cursor : IColor;
  ansi : list (option IColor)
}.
End Restore.
Definition IRestoreColorSet : Type := Restore.IRestoreColorSet.

(** The object: its fields, and the lines it has written with
    [console.warn], most recent first. *)
Record ColorManager : Type := mkManager {
  colors : IColorSet;
  _ctx : CanvasRenderingContext2D;
  _contrastCache : ColorContrastCache;
  _restoreColors : IRestoreColorSet;
  allowTransparency : bool;
  console : list string
}.

(** [colors.contrastCache], the alias of [_contrastCache]. *)
Definition contrastCache (m : ColorManager) : ColorContrastCache :=
  _contrastCache m.

Definition with_colors (f : IColorSet -> IColorSet) (m : ColorManager)
  : ColorManager :=
  mkManager (f (colors m)) (_ctx m) (_contrastCache m) (_restoreColors m)
            (allowTransparency m) (console m).

Definition with_ctx (f : CanvasRenderingContext2D -> CanvasRenderingContext2D)
  (m : ColorManager) : ColorManager :=
  mkManager (colors m) (f (_ctx m)) (_contrastCache m) (_restoreColors m)
            (allowTransparency m) (console m).

Definition with_contrastCache (f : ColorContrastCache -> ColorContrastCache)
  (m : ColorManager) : ColorManager :=
  mkManager (colors m) (_ctx m) (f (_contrastCache m)) (_restoreColors m)
            (allowTransparency m) (console m).

Definition with_restoreColors (r : IRestoreColorSet) (m : ColorManager)
  : ColorManager :=
  mkManager (colors m) (_ctx m) (_contrastCache m) r
            (allowTransparency m) (console m).

Definition with_allowTransparency (b : bool) (m : ColorManager)
  : ColorManager :=
  mkManager (colors m) (_ctx m) (_contrastCache m) (_restoreColors m)
            b (console m).

Definition with_console (f : list string -> list string) (m : ColorManager)
  : ColorManager :=
  mkManager (colors m) (_ctx m) (_contrastCache m) (_restoreColors m)
            (allowTransparency m) (f (console m)).

Definition put_foreground (c : IColor) (s : IColorSet) : IColorSet :=
  mkColorSet c (background s) (cursor s) (cursorAccent s)
    (selectionTransparent s) (selectionOpaque s) (selectionForeground s)
    (ansi s).

Definition put_background (c : IColor) (s : IColorSet) : IColorSet :=
  mkColorSet (foreground s) c (cursor s) (cursorAccent s)
    (selectionTransparent s) (selectionOpaque s) (selectionForeground s)
    (ansi s).

Definition put_cursor (c : IColor) (s : IColorSet) : IColorSet :=
  mkColorSet (foreground s) (background s) c (cursorAccent s)
    (selectionTransparent s) (selectionOpaque s) (selectionForeground s)
    (ansi s).

Definition put_cursorAccent (c : IColor) (s : IColorSet) : IColorSet :=
  mkColorSet (foreground s) (background s) (cursor s) c
    (selectionTransparent s) (selectionOpaque s) (selectionForeground s)
    (ansi s).

Definition put_selectionTransparent (c : IColor) (s : IColorSet)
  : IColorSet :=
  mkColorSet (foreground s) (background s) (cursor s) (cursorAccent s)
    c (selectionOpaque s) (selectionForeground s) (ansi s).

Definition put_selectionOpaque (c : IColor) (s : IColorSet) : IColorSet :=
  mkColorSet (foreground s) (background s) (cursor s) (cursorAccent s)
    (selectionTransparent s) c (selectionForeground s) (ansi s).

Definition put_selectionForeground (c : option IColor) (s : IColorSet)
  : IColorSet :=
  mkColorSet (foreground s) (background s) (cursor s) (cursorAccent s)
    (selectionTransparent s) (selectionOpaque s) c (ansi s).

Definition put_ansi (i : nat) (v : option IColor) (s : IColorSet)
  : IColorSet :=
  mkColorSet (foreground s) (background s) (cursor s) (cursorAccent s)
    (selectionTransparent s) (selectionOpaque s) (selectionForeground s)
    (js_set (ansi s) i v).

(** ** Methods as state transformers that may throw *)

Inductive Completion (A : Type) : Type :=
  | Normal (a : A)
  | Throw (e : string).
Arguments Normal {A} a.
Arguments Throw {A} e.

Definition M (A : Type) : Type := ColorManager -> Completion A * ColorManager.

Definition ret {A} (a : A) : M A := fun m => (Normal a, m).

Definition bind {A B} (c : M A) (k : A -> M B) : M B :=
  fun m =>
    match c m with
    | (Normal a, m') => k a m'
    | (Throw e, m') => (Throw e, m')
    end.

Definition throw {A} (e : string) : M A := fun m => (Throw e, m).

Definition gets {A} (f : ColorManager -> A) : M A := fun m => (Normal (f m), m).

Definition modify (f : ColorManager -> ColorManager) : M unit :=
  fun m => (Normal tt, f m).

Declare Scope js_scope.
Delimit Scope js_scope with js.
Notation "x <- c ;; k" := (bind c (fun x => k))
  (at level 61, c at next level, right associativity) : js_scope.
Notation "c ;; k" := (bind c (fun _ => k))
  (at level 61, right associativity) : js_scope.
Local Open Scope js_scope.

(** [for (let i = start; ...; i++) body], [count] being the number of turns. *)
Fixpoint for_loop (count : nat) (i : nat) (body : nat -> M unit) : M unit :=
  match count with
  | O => ret tt
  | S n => body i ;; for_loop n (S i) body
  end.

(** What [_parseColor] hands back: the very object it was given as
    [fallback], or a colour object of its own making.  The distinction is
    what [=== nullColor] in [setTheme] looks at. *)
Inductive Parsed : Type :=
  | Fallback
  | Fresh (c : IColor).

Definition pick (fallback : IColor) (p : Parsed) : IColor :=
  match p with
  | Fallback => fallback
  | Fresh c => c
  end.

Definition pick_opt (fallback : option IColor) (p : Parsed) : option IColor :=
  match p with
  | Fallback => fallback
  | Fresh c => Some c
  end.

(** [fallback.css] inside the warning text: a [TypeError] when [fallback] is
    [undefined]. *)
Definition css_of (fallback : option IColor) : M string :=
  match fallback with
  | Some c => ret (css c)
  | None =>
      throw "TypeError: Cannot read properties of undefined (reading 'css')"
  end.

Definition console_warn (line : string) : M unit :=
  modify (with_console (cons line)).

(** Values that come with an option change ([value: any]). *)
Inductive any : Type :=
  | any_undefined
  | any_boolean (b : bool)
  | any_number (n : number)
  | any_string (s : string).

(** Truthiness, the only thing ever asked of [allowTransparency]. *)
Definition truthy (v : any) : bool :=
  match v with
  | any_undefined => false
  | any_boolean b => b
  | any_number (Num q) => negb (Qeq_bool q 0)
  | any_number NaN => false
  | any_string s => negb (String.eqb s "")
  end.

(** ** A concrete environment

    The module below is written against its imports.  To run it on examples
    they are instantiated here: hexadecimal [#rrggbb] colours for
    [css.toColor] and [channels.toCss], source-over blending for
    [color.blend], a colour engine that knows [#rrggbb] strings and one
    translucent white, and 256, 257 and 258 for the special colour indexes.
    No general property depends on these choices. *)

Definition hex_digits : list ascii :=
  ["0"; "1"; "2"; "3"; "4"; "5"; "6"; "7"; "8"; "9";
   "a"; "b"; "c"; "d"; "e"; "f"]%char.

Definition hex2 (n : Z) : string :=
  String (nth (Z.to_nat ((n / 16) mod 16)) hex_digits "0"%char)
    (String (nth (Z.to_nat (n mod 16)) hex_digits "0"%char) EmptyString).

Definition hex_value (c : ascii) : option Z :=
  let n := Z.of_nat (nat_of_ascii c) in
  if andb (48 <=? n) (n <=? 57) then Some (n - 48)
  else if andb (97 <=? n) (n <=? 102) then Some (n - 87)
  else if andb (65 <=? n) (n <=? 70) then Some (n - 55)
  else None.

Fixpoint parse_hex (s : string) (acc : Z) : option Z :=
  match s with
  | EmptyString => Some acc
  | String c r =>
      match hex_value c with
      | Some d => parse_hex r (16 * acc + d)
      | None => None
      end
  end.

Definition sample_toCss (r g b : Z) (a : option Z) : string :=
  ("#" ++ hex2 r ++ hex2 g ++ hex2 b
   ++ match a with Some x => hex2 x | None => "" end)%string.

Definition sample_toColor (s : string) : IColor :=
  {| css := s;
     rgba := match s with
             | String "#" r =>
                 match parse_hex r 0 with
                 | Some n => uint32 (Z.lor (Z.shiftl n 8) 255)
                 | None => 0
                 end
             | _ => 0
             end |}.

Definition sample_blend (bg fg : IColor) : IColor :=
  let a := (inject_Z (alpha (rgba fg)) / inject_Z 255)%Q in
  let mix := fun (b f : Z) =>
    b + Qfloor (inject_Z (f - b) * a + (1 # 2))%Q in
  if alpha (rgba fg) =? 255 then fg
  else
    let r := mix (red (rgba bg)) (red (rgba fg)) in
    let g := mix (green (rgba bg)) (green (rgba fg)) in
    let b := mix (blue (rgba bg)) (blue (rgba fg)) in
    {| css := sample_toCss r g b None; rgba := toRgba r g b None |}.

Definition byte_of (z : Z) : byte :=
  match Byte.of_N (Z.to_N z) with
  | Some b => b
  | None => x00
  end.

Definition translucent_white : Resolved :=
  {| serialized := "rgba(255, 255, 255, 0.3)";
     rendered := mkData xff xff xff x4d |}.

Definition sample_engine (s : string) : option Resolved :=
  match s with
  | String "#" h =>
      if Nat.eqb (String.length h) 6 then
        match parse_hex h 0 with
        | Some n =>
            let r := (n / 65536) mod 256 in
            let g := (n / 256) mod 256 in
            let b := n mod 256 in
            Some {| serialized := sample_toCss r g b None;
                    rendered := mkData (byte_of r) (byte_of g) (byte_of b) xff |}
        | None => None
        end
      else None
  | _ =>
      if orb (String.eqb s "rgba(255, 255, 255, 0.3)")
             (String.eqb s "RGBA(255,255,255,.3)")
      then Some translucent_white
      else None
  end.



Definition SAMPLE_FOREGROUND : nat := 256.
Definition SAMPLE_BACKGROUND : nat := 257.
Definition SAMPLE_CURSOR : nat := 258.

(** Themes used in the examples: one that sets the selection only, one
    that sets the extended palette only. *)
Definition selection_theme (s : string) : ITheme :=
  Theme.mk None None None None (Some s) None None None None None None None
    None None None None None None None None None None None.

Definition extended_theme (l : list string) : ITheme :=
  Theme.mk None None None None None None None None None None None None
    None None None None None None None None None None (Some l).

(** Further themes for the examples: one string for the foreground, the
    background, the cursor and its accent; one string for the slot of
    black. *)
Definition roles_theme (s : string) : ITheme :=
  Theme.mk (Some s) (Some s) (Some s) (Some s) None None None None None None
    None None None None None None None None None None None None None.

Definition black_theme (s : string) : ITheme :=
  Theme.mk None None None None None None (Some s) None None None None None
    None None None None None None None None None None None.

(** ** The module [browser/ColorManager] *)

Section ColorManager.

(** The parts of the code base and of the host that the module imports:

    - [css.toColor], [channels.toCss] and [color.blend] of [common/Color];
    - the host's colour engine: what assigning a string to [fillStyle]
      resolves it to, if anything;
    - the values of the [ColorIndex] enumeration of [common/Types]. *)
Variable css_toColor : string -> IColor.
Variable toCss : Z -> Z -> Z -> option Z -> string.
Variable blend : IColor -> IColor -> IColor.
Variable engine : string -> option Resolved.
Variables FOREGROUND BACKGROUND CURSOR : nat.

(** Modelled from the spec: [color.opacity] of [common/Color],
    [opacity(color, alpha) -> Color]: the colour with its alpha channel set
    to the given fraction of 255, the other channels kept, both
    representations rebuilt from the channels. *)
Definition opacity (c : IColor) (o : Q) : IColor :=
  let a := ToInt32 (Math_round (js_mul (Num o) 255)) in
  let r := red (rgba c) in
  let g := green (rgba c) in
  let b := blue (rgba c) in
  {| css := toCss r g b (Some a); rgba := toRgba r g b (Some a) |}.

Definition DEFAULT_FOREGROUND : IColor := css_toColor "#ffffff".
Definition DEFAULT_BACKGROUND : IColor := css_toColor "#000000".
Definition DEFAULT_CURSOR : IColor := css_toColor "#ffffff".
Definition DEFAULT_CURSOR_ACCENT : IColor := css_toColor "#000000".
Definition DEFAULT_SELECTION : IColor :=
  {| css := "rgba(255, 255, 255, 0.3)"; rgba := 0xFFFFFF4D |}.

(** The 6-value table [v] of the colour cube; [v[k]] is only ever read with
    [k] in 0..5 (lemma [cube_index_range]). *)
Definition v : list Z := [0x00; 0x5f; 0x87; 0xaf; 0xd7; 0xff].

Definition v_at (k : Z) : Z := nth (Z.to_nat k) v 0.

(** [(i / d) % 6 | 0] *)
Definition cube_index (i d : Z) : Z := ToInt32 (js_rem (js_div i d) 6).

Definition cube_color (i : Z) : IColor :=
  let r := v_at (cube_index i 36) in
  let g := v_at (cube_index i 6) in
  let b := v_at (Z.rem i 6) in
  {| css := toCss r g b None; rgba := toRgba r g b None |}.

Definition grey_color (i : Z) : IColor :=
  let c := 8 + i * 10 in
  {| css := toCss c c c None; rgba := toRgba c c c None |}.

(** [for (let i = 0; i < count; i++) colors.push(entry(i))] *)
Fixpoint push_loop (count : nat) (i : Z) (entry : Z -> IColor)
  (colors : list IColor) : list IColor :=
  match count with
  | O => colors
  | S n => push_loop n (i + 1) entry (colors ++ [entry i])
  end.

Definition DEFAULT_ANSI_COLORS : list IColor :=
  let colors :=
    [ (* dark: *)
      css_toColor "#2e3436";
      css_toColor "#cc0000";
      css_toColor "#4e9a06";
      css_toColor "#c4a000";
      css_toColor "#3465a4";
      css_toColor "#75507b";
      css_toColor "#06989a";
      css_toColor "#d3d7cf";
      (* bright: *)
      css_toColor "#555753";
      css_toColor "#ef2929";
      css_toColor "#8ae234";
      css_toColor "#fce94f";
      css_toColor "#729fcf";
      css_toColor "#ad7fa8";
      css_toColor "#34e2e2";
      css_toColor "#eeeeec" ] in
  let colors := push_loop 216 0 cube_color colors in
  let colors := push_loop 24 0 grey_color colors in
  colors.

(** [DEFAULT_ANSI_COLORS[i]], [undefined] from 256 on. *)
Definition DEFAULT_ANSI_COLORS_at (i : nat) : option IColor :=
  nth_error DEFAULT_ANSI_COLORS i.

(** *** The context's operations *)

(** [this._ctx.fillStyle = this._litmusColor] *)
Definition set_fillStyle_litmus : M unit :=
  modify (with_ctx (fun c => mkCtx FS_litmus (pixel c))).

(** [this._ctx.fillStyle = css]: a string the engine cannot parse is ignored
    and the attribute keeps its value. *)
Definition set_fillStyle (s : string) : M unit :=
  modify (with_ctx (fun c =>
    match engine s with
    | Some r => mkCtx (FS_color r) (pixel c)
    | None => c
    end)).

Definition get_fillStyle : M (option string) :=
  gets (fun m => fillStyle_string (_ctx m)).

Definition fillRect : M unit :=
  modify (with_ctx (fun c => mkCtx (fillStyle c) (painted c))).

Definition getImageData : M ImageData := gets (fun m => pixel (_ctx m)).

(** *** [_updateRestoreColors] *)
Definition _updateRestoreColors : M unit :=
  modify (fun m =>
    with_restoreColors
      {| Restore.foreground := foreground (colors m);
         Restore.background := background (colors m);
         Restore.cursor := cursor (colors m);
         Restore.ansi := ansi (colors m) |} m).

(** *** [_parseColor]

    [allowTransparency] is the optional third argument; left out, it is read
    from the object.  A component the destructuring [[r, g, b, a]] does not
    find is [undefined], which [*], [<<] and [|] read as [NaN]. *)
Definition _parseColor (css : option string) (fallback : option IColor)
  (allowTransparency_arg : option bool) : M Parsed :=
  allowT <- match allowTransparency_arg with
            | Some b => ret b
            | None => gets allowTransparency
            end ;;
  match css with
  | None => ret Fallback
  | Some css =>
      set_fillStyle_litmus ;;
      set_fillStyle css ;;
      style <- get_fillStyle ;;
      match style with
      | None =>
          fcss <- css_of fallback ;;
          console_warn ("Color: " ++ css ++ " is invalid using fallback "
                        ++ fcss) ;;
          ret Fallback
      | Some style =>
          fillRect ;;
          data <- getImageData ;;
          if negb (u8 (data3 data) =? 0xFF) then
            if negb allowT then
              fcss <- css_of fallback ;;
              console_warn ("Color: " ++ css
                            ++ " is using transparency, but allowTransparency is false. "
                            ++ "Using fallback " ++ fcss ++ ".") ;;
              ret Fallback
            else
              let parts :=
                map Number
                  (js_split_comma
                     (js_substring style 5
                        (Z.of_nat (String.length style) - 1))) in
              let r := nth 0 parts Double.NaN in
              let g := nth 1 parts Double.NaN in
              let b := nth 2 parts Double.NaN in
              let a := nth 3 parts Double.NaN in
              let alpha := Double.Math_round (Double.mul a (Double.of_Z 255)) in
              let rgba :=
                toRgba (Double.ToInt32 r) (Double.ToInt32 g)
                       (Double.ToInt32 b) (Some (Double.ToInt32 alpha)) in
              ret (Fresh {| rgba := rgba; css := css |})
          else
            ret (Fresh {| css := style;
                          rgba := toRgba (u8 (data0 data)) (u8 (data1 data))
                                         (u8 (data2 data))
                                         (Some (u8 (data3 data))) |})
      end
  end.

(** *** The constructor

    [constructed ctx allowTransparency] is the object once the constructor
    has got its context [ctx]: [_restoreColors] is not yet assigned when
    [_updateRestoreColors] is called and is written by it. *)
Definition constructed (ctx : CanvasRenderingContext2D)
  (allowTransparency : bool) : ColorManager :=
  let this :=
    {| colors :=
         {| foreground := DEFAULT_FOREGROUND;
            background := DEFAULT_BACKGROUND;
            cursor := DEFAULT_CURSOR;
            cursorAccent := DEFAULT_CURSOR_ACCENT;
            selectionTransparent := DEFAULT_SELECTION;
            selectionOpaque := blend DEFAULT_BACKGROUND DEFAULT_SELECTION;
            selectionForeground := None;
            ansi := map Some DEFAULT_ANSI_COLORS |};
       _ctx := ctx;
       _contrastCache := [];
       _restoreColors :=
         {| Restore.foreground := DEFAULT_FOREGROUND;
            Restore.background := DEFAULT_BACKGROUND;
            Restore.cursor := DEFAULT_CURSOR;
            Restore.ansi := [] |};
       allowTransparency := allowTransparency;
       console := [] |} in
  snd (_updateRestoreColors this).

(** [document] either yields a 2D context or does not. *)
Definition constructor (getContext : option CanvasRenderingContext2D)
  (allowTransparency : bool) : Completion ColorManager :=
  match getContext with
  | None => Throw "Could not get rendering context"
  | Some ctx => Normal (constructed ctx allowTransparency)
  end.

(** *** [onOptionsChange] *)
Definition onOptionsChange (key : string) (value : any) : M unit :=
  if String.eqb key "minimumContrastRatio" then
    modify (with_contrastCache cache_clear)
  else if String.eqb key "allowTransparency" then
    modify (with_allowTransparency (truthy value))
  else ret tt.

(** *** [setTheme] *)

(** [this.colors.ansi[i] = this._parseColor(css, DEFAULT_ANSI_COLORS[i])] *)
Definition set_ansi_from (i : nat) (css : option string) : M unit :=
  p <- _parseColor css (DEFAULT_ANSI_COLORS_at i) None ;;
  modify (with_colors (put_ansi i (pick_opt (DEFAULT_ANSI_COLORS_at i) p))).

Definition nullColor : IColor := {| css := ""; rgba := 0 |}.

Definition setTheme (theme : ITheme) : M unit :=
  p <- _parseColor (Theme.foreground theme) (Some DEFAULT_FOREGROUND) None ;;
  modify (with_colors (put_foreground (pick DEFAULT_FOREGROUND p))) ;;
  p <- _parseColor (Theme.background theme) (Some DEFAULT_BACKGROUND) None ;;
  modify (with_colors (put_background (pick DEFAULT_BACKGROUND p))) ;;
  p <- _parseColor (Theme.cursor theme) (Some DEFAULT_CURSOR) (Some true) ;;
  modify (with_colors (put_cursor (pick DEFAULT_CURSOR p))) ;;
  p <- _parseColor (Theme.cursorAccent theme) (Some DEFAULT_CURSOR_ACCENT)
         (Some true) ;;
  modify (with_colors (put_cursorAccent (pick DEFAULT_CURSOR_ACCENT p))) ;;
  p <- _parseColor (Theme.selection theme) (Some DEFAULT_SELECTION)
         (Some true) ;;
  modify (with_colors (put_selectionTransparent (pick DEFAULT_SELECTION p))) ;;
  modify (with_colors (fun c =>
    put_selectionOpaque (blend (background c) (selectionTransparent c)) c)) ;;
  (* theme.selectionForeground ? this._parseColor(...) : undefined; the
     empty string is falsy *)
  p <- match Theme.selectionForeground theme with
       | Some s =>
           if String.eqb s "" then ret None
           else
             p <- _parseColor (Some s) (Some nullColor) None ;;
             ret (Some p)
       | None => ret None
       end ;;
  modify (with_colors (put_selectionForeground
    (match p with
     | Some p => pick_opt (Some nullColor) p
     | None => None
     end))) ;;
  (* if (this.colors.selectionForeground === nullColor): the very object *)
  match p with
  | Some Fallback => modify (with_colors (put_selectionForeground None))
  | _ => ret tt
  end ;;
  (* an opaque selection colour is given an opacity of 0.3 *)
  sel <- gets (fun m => selectionTransparent (colors m)) ;;
  (if isOpaque sel then
     modify (with_colors (put_selectionTransparent (opacity sel (3 # 10))))
   else ret tt) ;;
  set_ansi_from 0 (Theme.black theme) ;;
  set_ansi_from 1 (Theme.red theme) ;;
  set_ansi_from 2 (Theme.green theme) ;;
  set_ansi_from 3 (Theme.yellow theme) ;;
  set_ansi_from 4 (Theme.blue theme) ;;
  set_ansi_from 5 (Theme.magenta theme) ;;
  set_ansi_from 6 (Theme.cyan theme) ;;
  set_ansi_from 7 (Theme.white theme) ;;
  set_ansi_from 8 (Theme.brightBlack theme) ;;
  set_ansi_from 9 (Theme.brightRed theme) ;;
  set_ansi_from 10 (Theme.brightGreen theme) ;;
  set_ansi_from 11 (Theme.brightYellow theme) ;;
  set_ansi_from 12 (Theme.brightBlue theme) ;;
  set_ansi_from 13 (Theme.brightMagenta theme) ;;
  set_ansi_from 14 (Theme.brightCyan theme) ;;
  set_ansi_from 15 (Theme.brightWhite theme) ;;
  match Theme.extendedAnsi theme with
  | Some extendedAnsi =>
      let colorCount := Nat.max (List.length extendedAnsi + 16) 256 in
      for_loop (colorCount - 16) 16 (fun i =>
        set_ansi_from i (nth_error extendedAnsi (i - 16)))
  | None => ret tt
  end ;;
  (* Clear our the cache *)
  modify (with_contrastCache cache_clear) ;;
  _updateRestoreColors.

(** *** [restoreColor] *)
Definition restoreColor (slot : option nat) : M unit :=
  match slot with
  | None =>
      (* unset slot restores all ansi colors; the loop bound
         _restoreColors.ansi.length is not touched by the body *)
      n <- gets (fun m => List.length (Restore.ansi (_restoreColors m))) ;;
      for_loop n 0 (fun i =>
        modify (fun m =>
          with_colors (put_ansi i (js_get (Restore.ansi (_restoreColors m)) i))
                      m))
  | Some slot =>
      if Nat.eqb slot FOREGROUND then
        modify (fun m =>
          with_colors (put_foreground (Restore.foreground (_restoreColors m)))
                      m)
      else if Nat.eqb slot BACKGROUND then
        modify (fun m =>
          with_colors (put_background (Restore.background (_restoreColors m)))
                      m)
      else if Nat.eqb slot CURSOR then
        modify (fun m =>
          with_colors (put_cursor (Restore.cursor (_restoreColors m))) m)
      else
        modify (fun m =>
          with_colors
            (put_ansi slot (js_get (Restore.ansi (_restoreColors m)) slot)) m)
  end.

(** ** The methods without the canvas

    What validation and theme application compute, written as plain
    functions of the theme and of [allowTransparency]; the lemmas further
    down show that the methods above compute exactly this. *)

(** The context after a string went through validation. *)
Definition ctx_after (s : string) (c : CanvasRenderingContext2D)
  : CanvasRenderingContext2D :=
  match engine s with
  | Some r => mkCtx (FS_color r) (rendered r)
  | None => mkCtx FS_litmus (pixel c)
  end.

(** The three ways validation ends: nothing to validate, a warning and the
    fallback (the line still lacks the fallback's CSS text), or a colour. *)
Inductive Verdict : Type :=
  | Untouched
  | Warned (line : string -> string)
  | Made (c : IColor).

Definition verdict (css : option string) (allowT : bool) : Verdict :=
  match css with
  | None => Untouched
  | Some s =>
      match engine s with
      | None =>
          Warned (fun fcss =>
            "Color: " ++ s ++ " is invalid using fallback " ++ fcss)%string
      | Some r =>
          let data := rendered r in
          if negb (u8 (data3 data) =? 0xFF) then
            if negb allowT then
              Warned (fun fcss =>
                "Color: " ++ s
                ++ " is using transparency, but allowTransparency is false. "
                ++ "Using fallback " ++ fcss ++ ".")%string
            else
              let parts :=
                map Number
                  (js_split_comma
                     (js_substring (serialized r) 5
                        (Z.of_nat (String.length (serialized r)) - 1))) in
              Made {| rgba := toRgba (Double.ToInt32 (nth 0 parts Double.NaN))
                                (Double.ToInt32 (nth 1 parts Double.NaN))
                                (Double.ToInt32 (nth 2 parts Double.NaN))
                                (Some (Double.ToInt32
                                   (Double.Math_round
                                      (Double.mul (nth 3 parts Double.NaN)
                                                  (Double.of_Z 255)))));
                      css := s |}
          else
            Made {| css := serialized r;
                    rgba := toRgba (u8 (data0 data)) (u8 (data1 data))
                                   (u8 (data2 data)) (Some (u8 (data3 data))) |}
      end
  end.

Definition parsed (css : option string) (allowT : bool) : Parsed :=
  match verdict css allowT with
  | Made c => Fresh c
  | _ => Fallback
  end.

(** The value a colour role resolves to. *)
Definition resolve (css : option string) (fallback : IColor) (allowT : bool)
  : IColor :=
  pick fallback (parsed css allowT).

(** The value [set_ansi_from i css] writes, if it gets to write. *)
Definition ansi_value (allowT : bool) (i : nat) (css : option string)
  : option (option IColor) :=
  match verdict css allowT, DEFAULT_ANSI_COLORS_at i with
  | Warned _, None => None
  | _, fb => Some (pick_opt fb (parsed css allowT))
  end.

(** A run of palette assignments, up to the first that throws; the flag
    tells whether all were made. *)
Fixpoint write_all (allowT : bool) (todo : list (nat * option string))
  (l : list (option IColor)) : list (option IColor) * bool :=
  match todo with
  | [] => (l, true)
  | (i, css) :: rest =>
      match ansi_value allowT i css with
      | Some v => write_all allowT rest (js_set l i v)
      | None => (l, false)
      end
  end.

(** The palette assignments of a theme, in program order. *)
Definition extended_assignments (theme : ITheme) : list (nat * option string) :=
  match Theme.extendedAnsi theme with
  | Some extendedAnsi =>
      map (fun i => (i, nth_error extendedAnsi (i - 16)))
          (seq 16 (Nat.max (List.length extendedAnsi + 16) 256 - 16))
  | None => []
  end.

Definition assignments (theme : ITheme) : list (nat * option string) :=
  [ (0, Theme.black theme); (1, Theme.red theme); (2, Theme.green theme);
    (3, Theme.yellow theme); (4, Theme.blue theme);
    (5, Theme.magenta theme); (6, Theme.cyan theme); (7, Theme.white theme);
    (8, Theme.brightBlack theme); (9, Theme.brightRed theme);
    (10, Theme.brightGreen theme); (11, Theme.brightYellow theme);
    (12, Theme.brightBlue theme); (13, Theme.brightMagenta theme);
    (14, Theme.brightCyan theme); (15, Theme.brightWhite theme) ]%nat
  ++ extended_assignments theme.

(** The fields other than the palette, as a theme sets them. *)
Definition structural (theme : ITheme) (allowT : bool) (before : IColorSet)
  : IColorSet :=
  let bg := resolve (Theme.background theme) DEFAULT_BACKGROUND allowT in
  let sel := resolve (Theme.selection theme) DEFAULT_SELECTION true in
  {| foreground := resolve (Theme.foreground theme) DEFAULT_FOREGROUND allowT;
     background := bg;
     cursor := resolve (Theme.cursor theme) DEFAULT_CURSOR true;
     cursorAccent :=
       resolve (Theme.cursorAccent theme) DEFAULT_CURSOR_ACCENT true;
     selectionTransparent :=
       if isOpaque sel then opacity sel (3 # 10) else sel;
     selectionOpaque := blend bg sel;
     selectionForeground :=
       match Theme.selectionForeground theme with
       | Some s =>
           if String.eqb s "" then None
           else match parsed (Some s) allowT with
                | Fresh c => Some c
                | Fallback => None
                end
       | None => None
       end;
     ansi := ansi before |}.

Definition put_palette (l : list (option IColor)) (s : IColorSet)
  : IColorSet :=
  mkColorSet (foreground s) (background s) (cursor s) (cursorAccent s)
    (selectionTransparent s) (selectionOpaque s) (selectionForeground s) l.

(** The colour set a theme produces from the one before it, and whether the
    call returned. *)
Definition themed (theme : ITheme) (allowT : bool) (before : IColorSet)
  : IColorSet * bool :=
  let out := write_all allowT (assignments theme) (ansi before) in
  (put_palette (fst out) (structural theme allowT before), snd out).

Definition snapshot (c : IColorSet) : IRestoreColorSet :=
  {| Restore.foreground := foreground c;
     Restore.background := background c;
     Restore.cursor := cursor c;
     Restore.ansi := ansi c |}.

(** [restoreColor()] on the palette: [count] slots from [i] on are taken
    from the snapshot. *)
Fixpoint restore_from (saved : list (option IColor)) (count i : nat)
  (l : list (option IColor)) : list (option IColor) :=
  match count with
  | O => l
  | S n => restore_from saved n (S i) (js_set l i (js_get saved i))
  end.

(** *** Sequences of calls

    What happens to a manager during its life: calls of its public methods,
    and the renderer storing a contrast result in the cache it shares with
    the manager through [colors.contrastCache]. *)

Inductive Call : Type :=
  | Call_setTheme (theme : ITheme)
  | Call_restoreColor (slot : option nat)
  | Call_onOptionsChange (key : string) (value : any)
  | Renderer_caches (bg fg : Z) (v : IColor).

Definition call (c : Call) : M unit :=
  match c with
  | Call_setTheme theme => setTheme theme
  | Call_restoreColor slot => restoreColor slot
  | Call_onOptionsChange key value => onOptionsChange key value
  | Renderer_caches bg fg v => modify (with_contrastCache (cache_set bg fg v))
  end.

(** The object after a sequence of calls (a call that throws leaves it as
    it was at the throw), together with the object as it was when the latest
    [setTheme] that returned had just returned; [applied] starts as the
    object the constructor made. *)
Fixpoint run (calls : list Call) (m applied : ColorManager)
  : ColorManager * ColorManager :=
  match calls with
  | [] => (m, applied)
  | c :: rest =>
      let '(r, m') := call c m in
      run rest m'
        (match c, r with
         | Call_setTheme _, Normal _ => m'
         | _, _ => applied
         end)
  end.

(** *** Reasoning about the methods *)

(** The [allowTransparency] a call of [_parseColor] works with. *)
Definition effective (arg : option bool) (m : ColorManager) : bool :=
  match arg with
  | Some b => b
  | None => allowTransparency m
  end.

(** [wp c Q m]: running [c] on [m] ends in a completion and an object that
    satisfy [Q]. *)
Definition wp {A} (c : M A) (Q : Completion A -> ColorManager -> Prop)
  (m : ColorManager) : Prop :=
  Q (fst (c m)) (snd (c m)).

(** What the object holds apart from the canvas and the console. *)
Definition holds (c : IColorSet) (allowT : bool) (k : ColorContrastCache)
  (r : IRestoreColorSet) (m : ColorManager) : Prop :=
  colors m = c /\ allowTransparency m = allowT /\ _contrastCache m = k /\
  _restoreColors m = r.

(** What [setTheme] has achieved when it ends, given the fields [c] it set
    before the palette and the outcome [out] of the palette assignments:
    [k] and [r] are the cache and the snapshot from before the call. *)
Definition theme_post (allowT : bool) (k : ColorContrastCache)
  (r : IRestoreColorSet) (c : IColorSet)
  (out : list (option IColor) * bool)
  : Completion unit -> ColorManager -> Prop :=
  fun res m =>
    colors m = put_palette (fst out) c /\
    allowTransparency m = allowT /\
    if snd out then
      res = Normal tt /\ _contrastCache m = [] /\
      _restoreColors m = snapshot (put_palette (fst out) c)
    else
      (exists e, res = Throw e) /\ _contrastCache m = k /\
      _restoreColors m = r.

(** What every reachable object satisfies, [applied] being the object as
    the latest [setTheme] that returned (or the constructor) left it: the
    snapshot holds the palette of [applied], and the palette has never less
    than its 256 slots. *)
Definition snapshot_inv (m applied : ColorManager) : Prop :=
  Restore.ansi (_restoreColors m) = ansi (colors applied) /\
  (256 <= List.length (ansi (colors applied)))%nat /\
  (256 <= List.length (ansi (colors m)))%nat.

(** The palette and its snapshot have their first 256 slots, all defined. *)
Definition defined_below (n : nat) (l : list (option IColor)) : Prop :=
  forall i, (i < n)%nat -> exists c, js_get l i = Some c.

Definition palette_inv (m : ColorManager) : Prop :=
  (256 <= List.length (ansi (colors m)))%nat /\
  defined_below 256 (ansi (colors m)) /\
  (256 <= List.length (Restore.ansi (_restoreColors m)))%nat /\
  defined_below 256 (Restore.ansi (_restoreColors m)).

Definition palette_256 (m : ColorManager) : Prop :=
  List.length (ansi (colors m)) = 256%nat /\
  List.length (Restore.ansi (_restoreColors m)) = 256%nat.

(** Calls that stay within the 256 slots: a theme with at most 240 extended
    colours; [restoreColor] without a slot, with a palette index, or with one
    of the three special indexes. *)
Definition within_palette (c : Call) : Prop :=
  match c with
  | Call_setTheme theme =>
      match Theme.extendedAnsi theme with
      | Some l => (List.length l <= 240)%nat
      | None => True
      end
  | Call_restoreColor (Some slot) =>
      (slot < 256)%nat \/ slot = FOREGROUND \/ slot = BACKGROUND \/
      slot = CURSOR
  | _ => True
  end.

(** ** Properties *)

(** *** Arrays *)

Lemma js_set_nil_length {A} (i : nat) (v : option A) :
  List.length (js_set [] i v) = S i.
Proof. induction i as [|i IH]; simpl; [reflexivity | now rewrite IH]. Qed.

Lemma js_set_length {A} (l : list (option A)) (i : nat) (v : option A) :
  List.length (js_set l i v) = Nat.max (List.length l) (S i).
Proof.
  revert i; induction l as [|x t IH]; intros i.
  - rewrite js_set_nil_length; reflexivity.
  - destruct i as [|i]; simpl.
    + rewrite Nat.max_0_r; reflexivity.
    + rewrite IH; reflexivity.
Qed.

Lemma js_set_hit {A} (l : list (option A)) (i : nat) (v : option A) :
  nth_error (js_set l i v) i = Some v.
Proof.
  revert l; induction i as [|i IH]; intros [|x t]; simpl; auto.
Qed.

Lemma js_set_miss {A} (l : list (option A)) (i j : nat) (v x : option A) :
  i <> j -> nth_error l j = Some x -> nth_error (js_set l i v) j = Some x.
Proof.
  revert i j; induction l as [|y t IH]; intros i j Hij Hj.
  - destruct j; discriminate.
  - destruct i as [|i], j as [|j]; simpl in *; auto; congruence.
Qed.

Lemma js_set_same {A} (l : list (option A)) (i : nat) (v : option A) :
  nth_error l i = Some v -> js_set l i v = l.
Proof.
  revert i; induction l as [|y t IH]; intros [|i] H; simpl in *;
    try discriminate.
  - congruence.
  - f_equal; auto.
Qed.

Lemma js_get_set_hit {A} (l : list (option A)) (i : nat) (v : option A) :
  js_get (js_set l i v) i = v.
Proof.
  unfold js_get. revert l; induction i as [|i IH]; intros [|x t]; simpl; auto.
Qed.

Lemma js_get_set_miss {A} (l : list (option A)) (i j : nat) (v : option A) :
  i <> j -> js_get (js_set l i v) j = js_get l j.
Proof.
  unfold js_get. revert i j; induction l as [|y t IH]; intros i j Hij.
  - revert j Hij; induction i as [|i IHi]; intros [|j] Hij; simpl; auto;
      try congruence.
    + destruct j; reflexivity.
    + rewrite IHi by congruence. destruct j; reflexivity.
  - destruct i as [|i], j as [|j]; simpl; auto; congruence.
Qed.

Lemma js_get_nth_error {A} (l : list (option A)) (i : nat) :
  (i < List.length l)%nat -> nth_error l i = Some (js_get l i).
Proof.
  unfold js_get. revert i; induction l as [|y t IH]; intros [|i] H; simpl in *;
    try lia; auto.
  apply IH; lia.
Qed.

(** *** Packed colours *)

Lemma lor_shiftl_add (a x n : Z) :
  0 <= n -> 0 <= x < 2 ^ n -> Z.lor (Z.shiftl a n) x = a * 2 ^ n + x.
Proof.
  intros Hn Hx.
  assert (Hland : Z.land (Z.shiftl a n) x = 0).
  { apply Z.bits_inj'; intros k Hk.
    rewrite Z.land_spec, Z.bits_0.
    destruct (Z.lt_ge_cases k n) as [Hlt | Hge].
    - rewrite Z.shiftl_spec_low by assumption. reflexivity.
    - rewrite <- (Z.mod_small x (2 ^ n)) by assumption.
      rewrite Z.mod_pow2_bits_high by lia.
      apply andb_false_r. }
  rewrite <- Z.lxor_lor by assumption.
  rewrite <- Z.add_nocarry_lxor by assumption.
  rewrite Z.shiftl_mul_pow2 by assumption. reflexivity.
Qed.

Lemma toRgba_sum (r g b a : Z) :
  0 <= r < 256 -> 0 <= g < 256 -> 0 <= b < 256 -> 0 <= a < 256 ->
  toRgba r g b (Some a) = r * 2 ^ 24 + g * 2 ^ 16 + b * 2 ^ 8 + a.
Proof.
  intros Hr Hg Hb Ha. unfold toRgba, uint32.
  replace (Z.shiftl r 24) with (Z.shiftl (Z.shiftl r 8) 16)
    by (rewrite Z.shiftl_shiftl by lia; reflexivity).
  rewrite <- Z.shiftl_lor.
  rewrite (lor_shiftl_add r g 8) by lia.
  replace (Z.shiftl (r * 2 ^ 8 + g) 16)
    with (Z.shiftl (Z.shiftl (r * 2 ^ 8 + g) 8) 8)
    by (rewrite Z.shiftl_shiftl by lia; reflexivity).
  rewrite <- Z.shiftl_lor.
  rewrite (lor_shiftl_add (r * 2 ^ 8 + g) b 8) by lia.
  rewrite (lor_shiftl_add _ a 8) by lia.
  rewrite Z.mod_small by lia. lia.
Qed.

Lemma channels_of_sum (r g b a : Z) :
  0 <= r < 256 -> 0 <= g < 256 -> 0 <= b < 256 -> 0 <= a < 256 ->
  let x := r * 2 ^ 24 + g * 2 ^ 16 + b * 2 ^ 8 + a in
  red x = r /\ green x = g /\ blue x = b /\ alpha x = a.
Proof.
  intros Hr Hg Hb Ha x. unfold red, green, blue, alpha.
  change 255 with (Z.ones 8).
  rewrite !Z.land_ones, !Z.shiftr_div_pow2 by lia.
  subst x. change (2 ^ 24) with 16777216. change (2 ^ 16) with 65536.
  change (2 ^ 8) with 256.
  repeat split.
  - rewrite Z.mod_small; [|split].
    + symmetry; apply Z.div_unique with (g * 65536 + b * 256 + a); lia.
    + apply Z.div_pos; lia.
    + apply Z.div_lt_upper_bound; lia.
  - replace (r * 16777216 + g * 65536 + b * 256 + a)
      with ((r * 256 + g) * 65536 + (b * 256 + a)) by lia.
    rewrite Z.div_add_l by lia.
    rewrite (Z.div_small (b * 256 + a)) by lia.
    rewrite Z.add_0_r, Z.add_comm, Z.mod_add by lia.
    apply Z.mod_small; lia.
  - replace (r * 16777216 + g * 65536 + b * 256 + a)
      with ((r * 65536 + g * 256 + b) * 256 + a) by lia.
    rewrite Z.div_add_l by lia.
    rewrite (Z.div_small a) by lia.
    rewrite Z.add_0_r.
    replace (r * 65536 + g * 256 + b) with (b + (r * 256 + g) * 256) by lia.
    rewrite Z.mod_add by lia. apply Z.mod_small; lia.
  - replace (r * 16777216 + g * 65536 + b * 256 + a)
      with (a + (r * 65536 + g * 256 + b) * 256) by lia.
    rewrite Z.mod_add by lia. apply Z.mod_small; lia.
Qed.

Lemma toRgba_channels (r g b a : Z) :
  0 <= r < 256 -> 0 <= g < 256 -> 0 <= b < 256 -> 0 <= a < 256 ->
  red (toRgba r g b (Some a)) = r /\ green (toRgba r g b (Some a)) = g /\
  blue (toRgba r g b (Some a)) = b /\ alpha (toRgba r g b (Some a)) = a.
Proof.
  intros Hr Hg Hb Ha. rewrite toRgba_sum by assumption.
  apply channels_of_sum; assumption.
Qed.

Lemma u8_range (x : byte) : 0 <= u8 x < 256.
Proof.
  unfold u8. pose proof (Byte.to_N_bounded x). lia.
Qed.

Lemma channel_range (x : Z) :
  0 <= red x < 256 /\ 0 <= green x < 256 /\ 0 <= blue x < 256 /\
  0 <= alpha x < 256.
Proof.
  unfold red, green, blue, alpha. change 255 with (Z.ones 8).
  rewrite !Z.land_ones by lia.
  repeat split; apply Z.mod_pos_bound; lia.
Qed.

(** *** The default palette *)

Lemma push_loop_spec (count : nat) (i : Z) (entry : Z -> IColor)
  (colors : list IColor) :
  push_loop count i entry colors
  = colors ++ map (fun k => entry (i + Z.of_nat k)) (seq 0 count).
Proof.
  revert i colors; induction count as [|n IH]; intros i colors.
  - simpl. now rewrite app_nil_r.
  - cbn [push_loop seq map]. rewrite IH, <- app_assoc. cbn [app].
    rewrite Z.add_0_r. do 2 f_equal.
    rewrite <- seq_shift, map_map. apply map_ext; intros k.
    f_equal; lia.
Qed.

Lemma default_palette_length : List.length DEFAULT_ANSI_COLORS = 256%nat.
Proof.
  unfold DEFAULT_ANSI_COLORS. rewrite !push_loop_spec.
  rewrite !length_app, !length_map, !length_seq. reflexivity.
Qed.

Lemma default_palette_cube (k : nat) :
  (k < 216)%nat ->
  nth_error DEFAULT_ANSI_COLORS (16 + k) = Some (cube_color (Z.of_nat k)).
Proof.
  intros Hk. unfold DEFAULT_ANSI_COLORS. rewrite !push_loop_spec.
  rewrite nth_error_app1
    by (rewrite length_app, length_map, length_seq; simpl; lia).
  rewrite nth_error_app2 by (simpl; lia).
  replace (16 + k - _)%nat with k by (simpl; lia).
  rewrite nth_error_map, nth_error_seq.
  destruct (Nat.ltb_spec k 216) as [_|]; [|lia]. reflexivity.
Qed.

Lemma default_palette_grey (k : nat) :
  (k < 24)%nat ->
  nth_error DEFAULT_ANSI_COLORS (232 + k) = Some (grey_color (Z.of_nat k)).
Proof.
  intros Hk. unfold DEFAULT_ANSI_COLORS. rewrite !push_loop_spec.
  rewrite nth_error_app2
    by (rewrite length_app, length_map, length_seq; simpl; lia).
  rewrite length_app, length_map, length_seq.
  replace (232 + k - _)%nat with k by (simpl; lia).
  rewrite nth_error_map, nth_error_seq.
  destruct (Nat.ltb_spec k 24) as [_|]; [|lia]. reflexivity.
Qed.

Lemma default_palette_defined (i : nat) :
  (i < 256)%nat -> exists c, DEFAULT_ANSI_COLORS_at i = Some c.
Proof.
  intros Hi. unfold DEFAULT_ANSI_COLORS_at.
  destruct (nth_error DEFAULT_ANSI_COLORS i) as [c|] eqn:E; [eauto|].
  apply nth_error_None in E. rewrite default_palette_length in E. lia.
Qed.

Lemma default_palette_undefined (i : nat) :
  (256 <= i)%nat -> DEFAULT_ANSI_COLORS_at i = None.
Proof.
  intros Hi. apply nth_error_None. rewrite default_palette_length. lia.
Qed.

(** The index expressions of the cube, [(i / 36) % 6 | 0] and
    [(i / 6) % 6 | 0], are the integer quotients reduced modulo 6. *)
Lemma cube_index_floor (k : nat) :
  (k < 216)%nat ->
  cube_index (Z.of_nat k) 36 = (Z.of_nat k / 36) mod 6 /\
  cube_index (Z.of_nat k) 6 = (Z.of_nat k / 6) mod 6 /\
  Z.rem (Z.of_nat k) 6 = Z.of_nat k mod 6.
Proof.
  intros Hk.
  assert (H : forallb (fun k =>
            andb (andb (cube_index (Z.of_nat k) 36 =? (Z.of_nat k / 36) mod 6)
                       (cube_index (Z.of_nat k) 6 =? (Z.of_nat k / 6) mod 6))
                 (Z.rem (Z.of_nat k) 6 =? Z.of_nat k mod 6))
          (seq 0 216) = true) by (vm_compute; reflexivity).
  rewrite forallb_forall in H.
  specialize (H k). rewrite in_seq in H.
  specialize (H (conj (Nat.le_0_l k) Hk)).
  apply andb_prop in H; destruct H as [H H3].
  apply andb_prop in H; destruct H as [H1 H2].
  rewrite Z.eqb_eq in H1, H2, H3. auto.
Qed.

Lemma cube_index_range (k : nat) :
  (k < 216)%nat ->
  0 <= cube_index (Z.of_nat k) 36 < 6 /\ 0 <= cube_index (Z.of_nat k) 6 < 6.
Proof.
  intros Hk. destruct (cube_index_floor k Hk) as (-> & -> & _).
  split; apply Z.mod_pos_bound; lia.
Qed.

Lemma v_at_range (k : Z) : 0 <= v_at k < 256.
Proof.
  unfold v_at, v. generalize (Z.to_nat k) as n; intros n.
  do 6 (destruct n as [|n]; [simpl; lia|]).
  destruct n; simpl; lia.
Qed.

(** *** [_parseColor] *)

Lemma parse_eq (input : option string) (fallback : option IColor)
  (arg : option bool) (m : ColorManager) :
  _parseColor input fallback arg m =
  match input with
  | None => (Normal Fallback, m)
  | Some s =>
      let m' := with_ctx (ctx_after s) m in
      match verdict input (effective arg m) with
      | Untouched => (Normal Fallback, m)
      | Made c => (Normal (Fresh c), m')
      | Warned line =>
          match fallback with
          | Some f =>
              (Normal Fallback, with_console (cons (line (css f))) m')
          | None =>
              (Throw
                 "TypeError: Cannot read properties of undefined (reading 'css')",
               m')
          end
      end
  end.
Proof.
  destruct m as [cs ctx k rs a log].
  destruct input as [s|]; [|destruct arg; reflexivity].
  unfold _parseColor, verdict, ctx_after, effective.
  destruct arg as [b|]; cbn;
    (destruct (engine s) as [r|] eqn:E; cbn; rewrite ?E; cbn;
     [ destruct (u8 (data3 (rendered r)) =? 255); cbn;
       [ reflexivity | ]
     | destruct fallback; reflexivity ]).
  - destruct b; cbn; [reflexivity | destruct fallback; reflexivity].
  - destruct a; cbn; [reflexivity | destruct fallback; reflexivity].
Qed.

(** *** Rules for [wp] *)

Lemma wp_bind_iff {A B} (c : M A) (k : A -> M B) Q m :
  wp (bind c k) Q m <->
  wp c (fun r m' => match r with
                    | Normal a => wp (k a) Q m'
                    | Throw e => Q (Throw e) m'
                    end) m.
Proof.
  unfold wp, bind. destruct (c m) as [[a|e] m']; simpl; reflexivity.
Qed.

Lemma wp_bind {A B} (c : M A) (k : A -> M B) Q m :
  wp c (fun r m' => match r with
                    | Normal a => wp (k a) Q m'
                    | Throw e => Q (Throw e) m'
                    end) m ->
  wp (bind c k) Q m.
Proof. apply wp_bind_iff. Qed.

Lemma wp_ret {A} (a : A) (Q : Completion A -> ColorManager -> Prop) m :
  Q (Normal a) m -> wp (ret a) Q m.
Proof. exact (fun H => H). Qed.

Lemma wp_gets {A} (f : ColorManager -> A)
  (Q : Completion A -> ColorManager -> Prop) m :
  Q (Normal (f m)) m -> wp (gets f) Q m.
Proof. exact (fun H => H). Qed.

Lemma wp_modify (f : ColorManager -> ColorManager)
  (Q : Completion unit -> ColorManager -> Prop) m :
  Q (Normal tt) (f m) -> wp (modify f) Q m.
Proof. exact (fun H => H). Qed.

Lemma wp_modify_colors c a k r (f : IColorSet -> IColorSet)
  (Q : Completion unit -> ColorManager -> Prop) m :
  holds c a k r m ->
  (forall m', holds (f c) a k r m' -> Q (Normal tt) m') ->
  wp (modify (with_colors f)) Q m.
Proof.
  intros (H1 & H2 & H3 & H4) HQ. apply wp_modify, HQ.
  unfold holds; cbn. subst; auto.
Qed.

Lemma holds_with_ctx c a k r f m :
  holds c a k r m -> holds c a k r (with_ctx f m).
Proof. intros (? & ? & ? & ?); unfold holds; cbn; auto. Qed.

Lemma holds_with_console c a k r f m :
  holds c a k r m -> holds c a k r (with_console f m).
Proof. intros (? & ? & ? & ?); unfold holds; cbn; auto. Qed.

Lemma effective_holds c a k r arg m :
  holds c a k r m ->
  effective arg m = match arg with Some b => b | None => a end.
Proof. intros (_ & Ha & _). destruct arg; simpl; auto. Qed.

Lemma wp_parse c a k r input fallback arg
  (Q : Completion Parsed -> ColorManager -> Prop) m :
  holds c a k r m ->
  (forall m', holds c a k r m' ->
     Q (Normal (parsed input (match arg with Some b => b | None => a end)))
       m') ->
  wp (_parseColor input (Some fallback) arg) Q m.
Proof.
  intros Hm HQ. unfold wp. rewrite parse_eq.
  rewrite (effective_holds _ _ _ _ arg _ Hm).
  destruct input as [s|]; [|apply HQ, Hm].
  cbv zeta.
  pose proof (HQ _ Hm) as H0.
  pose proof (HQ _ (holds_with_ctx _ _ _ _ (ctx_after s) _ Hm)) as H1.
  pose proof (fun g => HQ _ (holds_with_console _ _ _ _ g _
                 (holds_with_ctx _ _ _ _ (ctx_after s) _ Hm))) as H2.
  unfold parsed in *.
  destruct (verdict (Some s) _); simpl; auto.
Qed.

Lemma wp_set_ansi c a k r i input
  (Q : Completion unit -> ColorManager -> Prop) m :
  holds c a k r m ->
  (forall m' v, ansi_value a i input = Some v ->
     holds (put_ansi i v c) a k r m' -> Q (Normal tt) m') ->
  (forall m' e, ansi_value a i input = None ->
     holds c a k r m' -> Q (Throw e) m') ->
  wp (set_ansi_from i input) Q m.
Proof.
  intros Hm Hok Hthrow. unfold set_ansi_from. apply wp_bind.
  unfold wp at 1. rewrite parse_eq.
  rewrite (effective_holds _ _ _ _ None _ Hm).
  unfold ansi_value, parsed in *.
  pose proof (holds_with_ctx c a k r) as Hc.
  pose proof (holds_with_console c a k r) as Hl.
  destruct input as [s|].
  - cbv zeta.
    destruct (verdict (Some s) a) as [|line|col] eqn:E; simpl.
    + eapply wp_modify_colors; eauto.
    + destruct (DEFAULT_ANSI_COLORS_at i) as [f|]; simpl.
      * eapply wp_modify_colors; eauto.
      * eapply Hthrow; eauto.
    + eapply wp_modify_colors; eauto.
  - simpl in *. eapply wp_modify_colors; eauto.
Qed.

(** *** [setTheme] *)

Lemma put_palette_same c : put_palette (ansi c) c = c.
Proof. destruct c; reflexivity. Qed.

Lemma theme_post_thrown a k r c m e :
  holds c a k r m -> theme_post a k r c (ansi c, false) (Throw e) m.
Proof.
  intros (H1 & H2 & H3 & H4). unfold theme_post; simpl.
  rewrite put_palette_same. eauto 6.
Qed.

Lemma wp_finish a k r c m :
  holds c a k r m ->
  wp (modify (with_contrastCache cache_clear) ;; _updateRestoreColors)%js
     (theme_post a k r c (ansi c, true)) m.
Proof.
  intros (H1 & H2 & H3 & H4). apply wp_bind, wp_modify, wp_modify.
  unfold theme_post; cbn. rewrite put_palette_same. subst.
  destruct (colors m); auto.
Qed.

Lemma wp_ansi_step a k r i input todo (rest : M unit) :
  (forall c m, holds c a k r m ->
     wp rest (theme_post a k r c (write_all a todo (ansi c))) m) ->
  forall c m, holds c a k r m ->
    wp (set_ansi_from i input ;; rest)%js
       (theme_post a k r c (write_all a ((i, input) :: todo) (ansi c))) m.
Proof.
  intros Hrest c m Hm. apply wp_bind.
  eapply wp_set_ansi; [exact Hm | |].
  - intros m' v Ev Hm'. cbn [write_all]. rewrite Ev.
    specialize (Hrest _ _ Hm'). exact Hrest.
  - intros m' e Ev Hm'. cbn [write_all]. rewrite Ev.
    apply theme_post_thrown; assumption.
Qed.

Lemma wp_ansi_loop a k r (f : nat -> option string) (rest : M unit) :
  (forall c m, holds c a k r m ->
     wp rest (theme_post a k r c (ansi c, true)) m) ->
  forall count i c m, holds c a k r m ->
    wp (for_loop count i (fun i => set_ansi_from i (f i)) ;; rest)%js
       (theme_post a k r c
          (write_all a (map (fun i => (i, f i)) (seq i count)) (ansi c))) m.
Proof.
  intros Hrest count; induction count as [|n IH]; intros i c m Hm.
  - apply wp_bind, wp_ret. apply Hrest, Hm.
  - apply wp_bind. cbn [for_loop]. apply wp_bind.
    eapply wp_set_ansi; [exact Hm | |].
    + intros m' v Ev Hm'. cbn [seq map write_all]. rewrite Ev.
      apply wp_bind_iff. exact (IH (S i) _ _ Hm').
    + intros m' e Ev Hm'. cbn [seq map write_all]. rewrite Ev.
      apply theme_post_thrown; assumption.
Qed.

Ltac wp_put_last :=
  eapply wp_modify_colors; [eassumption | intros ? ?].

Ltac wp_put := apply wp_bind; wp_put_last.

Ltac wp_parse_then_put :=
  apply wp_bind; eapply wp_parse; [eassumption | intros ? ?]; wp_put.

(** The end of the structural part of [setTheme]: the opacity given to an
    opaque selection, then the palette, for which [Htail] stands. *)
Ltac wp_selection Htail :=
  apply wp_bind, wp_gets, wp_bind;
  match goal with
  | H : holds ?cc _ _ _ ?mm |- context [colors ?mm] =>
      replace (colors mm) with cc by (symmetry; apply H)
  end;
  cbn [selectionTransparent put_selectionForeground put_selectionOpaque
       put_selectionTransparent];
  match goal with
  | |- context [isOpaque ?x] =>
      let Eop := fresh "Eop" in
      destruct (isOpaque x) eqn:Eop;
      [ wp_put_last | apply wp_ret ];
      (eapply Htail; [|eassumption]);
      unfold structural, resolve in *;
      repeat match goal with
             | E : _ = _ |- _ => rewrite E
             end;
      reflexivity
  end.

Lemma setTheme_wp theme c a k r m :
  holds c a k r m ->
  wp (setTheme theme)
     (theme_post a k r (structural theme a c)
        (write_all a (assignments theme) (ansi c))) m.
Proof.
  intros Hm. unfold setTheme.
  do 5 wp_parse_then_put.
  wp_put.
  assert (Htail : forall c1 m1,
    c1 = structural theme a c -> holds c1 a k r m1 ->
    wp (set_ansi_from 0 (Theme.black theme) ;;
        set_ansi_from 1 (Theme.red theme) ;;
        set_ansi_from 2 (Theme.green theme) ;;
        set_ansi_from 3 (Theme.yellow theme) ;;
        set_ansi_from 4 (Theme.blue theme) ;;
        set_ansi_from 5 (Theme.magenta theme) ;;
        set_ansi_from 6 (Theme.cyan theme) ;;
        set_ansi_from 7 (Theme.white theme) ;;
        set_ansi_from 8 (Theme.brightBlack theme) ;;
        set_ansi_from 9 (Theme.brightRed theme) ;;
        set_ansi_from 10 (Theme.brightGreen theme) ;;
        set_ansi_from 11 (Theme.brightYellow theme) ;;
        set_ansi_from 12 (Theme.brightBlue theme) ;;
        set_ansi_from 13 (Theme.brightMagenta theme) ;;
        set_ansi_from 14 (Theme.brightCyan theme) ;;
        set_ansi_from 15 (Theme.brightWhite theme) ;;
        match Theme.extendedAnsi theme with
        | Some extendedAnsi =>
            let colorCount := Nat.max (List.length extendedAnsi + 16) 256 in
            for_loop (colorCount - 16) 16 (fun i =>
              set_ansi_from i (nth_error extendedAnsi (i - 16)))
        | None => ret tt
        end ;;
        modify (with_contrastCache cache_clear) ;;
        _updateRestoreColors)%js
       (theme_post a k r (structural theme a c)
          (write_all a (assignments theme) (ansi c))) m1).
  { intros c1 m1 -> Hm1.
    change (ansi c) with (ansi (structural theme a c)).
    revert m1 Hm1. generalize (structural theme a c).
    unfold assignments; cbn [app].
    do 16 apply wp_ansi_step.
    unfold extended_assignments.
    destruct (Theme.extendedAnsi theme) as [ext|].
    - cbv zeta. intros c1 m1.
      apply (wp_ansi_loop a k r (fun i => nth_error ext (i - 16))).
      intros; apply wp_finish; assumption.
    - intros c1 m1 Hm1. apply wp_bind, wp_ret.
      apply wp_finish; assumption. }
  apply wp_bind.
  destruct (Theme.selectionForeground theme) as [s|] eqn:Esf;
    [destruct (String.eqb s "") eqn:Es|].
  - apply wp_ret. wp_put.
    apply wp_bind, wp_ret. wp_selection Htail.
  - apply wp_bind; eapply wp_parse; [eassumption | intros ? ?].
    apply wp_ret. wp_put. apply wp_bind.
    destruct (parsed (Some s) a) as [|sf] eqn:Ep.
    + wp_put_last. wp_selection Htail.
    + apply wp_ret. wp_selection Htail.
  - apply wp_ret. wp_put.
    apply wp_bind, wp_ret. wp_selection Htail.
Qed.

Lemma holds_refl m :
  holds (colors m) (allowTransparency m) (_contrastCache m) (_restoreColors m)
        m.
Proof. unfold holds; auto. Qed.

(** [setTheme] computes [themed]. *)
Lemma setTheme_spec theme m :
  theme_post (allowTransparency m) (_contrastCache m) (_restoreColors m)
    (structural theme (allowTransparency m) (colors m))
    (write_all (allowTransparency m) (assignments theme) (ansi (colors m)))
    (fst (setTheme theme m)) (snd (setTheme theme m)).
Proof. exact (setTheme_wp theme _ _ _ _ m (holds_refl m)). Qed.

Lemma setTheme_colors theme m :
  colors (snd (setTheme theme m))
  = fst (themed theme (allowTransparency m) (colors m)).
Proof. destruct (setTheme_spec theme m) as (H & _). exact H. Qed.

Lemma setTheme_allowTransparency theme m :
  allowTransparency (snd (setTheme theme m)) = allowTransparency m.
Proof. destruct (setTheme_spec theme m) as (_ & H & _). exact H. Qed.

Lemma setTheme_returns theme m :
  fst (setTheme theme m) = Normal tt ->
  snd (themed theme (allowTransparency m) (colors m)) = true.
Proof.
  intros Hr. destruct (setTheme_spec theme m) as (_ & _ & H).
  unfold themed; cbn [snd].
  destruct (snd (write_all _ _ _)); [reflexivity|].
  destruct H as ((e & He) & _). congruence.
Qed.

(** *** Palette assignments *)

Lemma write_all_keeps a todo : forall l i v,
  ~ In i (map fst todo) -> nth_error l i = Some v ->
  nth_error (fst (write_all a todo l)) i = Some v.
Proof.
  induction todo as [|[j input] rest IH]; intros l i v Hi Hv; [exact Hv|].
  cbn [write_all]. cbn [map fst In] in Hi.
  destruct (ansi_value a j input) as [w|]; [|exact Hv].
  apply IH; [tauto|]. apply js_set_miss; [tauto | exact Hv].
Qed.

Lemma write_all_length a todo : forall l,
  (List.length l <= List.length (fst (write_all a todo l)))%nat.
Proof.
  induction todo as [|[j input] rest IH]; intros l; [apply le_n|].
  cbn [write_all]. destruct (ansi_value a j input) as [w|]; [|apply le_n].
  eapply Nat.le_trans; [|apply IH]. rewrite js_set_length. lia.
Qed.

Lemma write_all_idempotent a todo : forall l,
  NoDup (map fst todo) ->
  write_all a todo (fst (write_all a todo l)) = write_all a todo l.
Proof.
  induction todo as [|[j input] rest IH]; intros l Hnd; [reflexivity|].
  cbn [map fst] in Hnd. inversion Hnd as [|? ? Hj Hrest]; subst.
  cbn [write_all]. destruct (ansi_value a j input) as [w|] eqn:E.
  - cbn [fst].
    rewrite (js_set_same (fst (write_all a rest (js_set l j w))) j w).
    + apply IH, Hrest.
    + apply write_all_keeps; [exact Hj | apply js_set_hit].
  - reflexivity.
Qed.

Lemma assignments_indexes theme :
  exists n, map fst (assignments theme) = seq 0 n.
Proof.
  unfold assignments, extended_assignments.
  destruct (Theme.extendedAnsi theme) as [ext|].
  - exists (16 + (Nat.max (List.length ext + 16) 256 - 16))%nat.
    rewrite map_app, map_map. cbn [fst]. rewrite map_id.
    rewrite seq_app. reflexivity.
  - exists 16%nat. reflexivity.
Qed.

Lemma assignments_NoDup theme : NoDup (map fst (assignments theme)).
Proof.
  destruct (assignments_indexes theme) as (n & ->). apply seq_NoDup.
Qed.

Lemma themed_idempotent theme a c :
  themed theme a (fst (themed theme a c)) = themed theme a c.
Proof.
  unfold themed. cbn [fst snd ansi put_palette structural].
  rewrite write_all_idempotent by apply assignments_NoDup.
  reflexivity.
Qed.

(** *** [restoreColor] *)

Lemma restore_from_get saved : forall count i l j,
  js_get (restore_from saved count i l) j
  = if andb (i <=? j)%nat (j <? i + count)%nat then js_get saved j
    else js_get l j.
Proof.
  induction count as [|n IH]; intros i l j.
  - cbn [restore_from].
    destruct (Nat.leb_spec i j), (Nat.ltb_spec j (i + 0)); simpl;
      try reflexivity; lia.
  - cbn [restore_from]. rewrite IH.
    destruct (Nat.leb_spec (S i) j), (Nat.ltb_spec j (S i + n)),
             (Nat.leb_spec i j), (Nat.ltb_spec j (i + S n)); simpl;
      try reflexivity; try lia.
    all: first [ apply js_get_set_miss; lia
               | replace j with i by lia; apply js_get_set_hit ].
Qed.

Lemma restore_from_length saved : forall count i l,
  (List.length l <= List.length (restore_from saved count i l))%nat.
Proof.
  induction count as [|n IH]; intros i l; [apply le_n|].
  cbn [restore_from]. eapply Nat.le_trans; [|apply IH].
  rewrite js_set_length; lia.
Qed.

Lemma restore_loop : forall count i m,
  for_loop count i (fun i =>
    modify (fun m =>
      with_colors (put_ansi i (js_get (Restore.ansi (_restoreColors m)) i))
                  m)) m
  = (Normal tt,
     with_colors
       (put_palette
          (restore_from (Restore.ansi (_restoreColors m)) count i
             (ansi (colors m)))) m).
Proof.
  induction count as [|n IH]; intros i m.
  - destruct m as [[] ? ? ? ? ?]; reflexivity.
  - cbn [for_loop restore_from]. unfold bind, modify at 1.
    rewrite IH. destruct m as [[] ? ? ? ? ?]; reflexivity.
Qed.

Lemma restoreColor_all m :
  restoreColor None m
  = (Normal tt,
     with_colors
       (put_palette
          (restore_from (Restore.ansi (_restoreColors m))
             (List.length (Restore.ansi (_restoreColors m))) 0
             (ansi (colors m)))) m).
Proof. unfold restoreColor, bind, gets. apply restore_loop. Qed.

(** [restoreColor] returns, and touches nothing but the colour set. *)
Lemma restoreColor_frame slot m :
  fst (restoreColor slot m) = Normal tt /\
  _contrastCache (snd (restoreColor slot m)) = _contrastCache m /\
  _restoreColors (snd (restoreColor slot m)) = _restoreColors m /\
  allowTransparency (snd (restoreColor slot m)) = allowTransparency m /\
  (List.length (ansi (colors m))
   <= List.length (ansi (colors (snd (restoreColor slot m)))))%nat.
Proof.
  destruct slot as [slot|].
  - unfold restoreColor.
    destruct (Nat.eqb slot FOREGROUND); [|destruct (Nat.eqb slot BACKGROUND);
      [|destruct (Nat.eqb slot CURSOR)]]; cbn; repeat split; auto.
    rewrite js_set_length; lia.
  - rewrite restoreColor_all; cbn. repeat split; auto.
    apply restore_from_length.
Qed.

Lemma onOptionsChange_frame key value m :
  colors (snd (onOptionsChange key value m)) = colors m /\
  _restoreColors (snd (onOptionsChange key value m)) = _restoreColors m.
Proof.
  unfold onOptionsChange.
  destruct (String.eqb key "minimumContrastRatio");
    [|destruct (String.eqb key "allowTransparency")]; cbn; auto.
Qed.

(** *** Reachable objects *)

Lemma snapshot_inv_constructed ctx a :
  snapshot_inv (constructed ctx a) (constructed ctx a).
Proof.
  unfold snapshot_inv, constructed, _updateRestoreColors, modify,
    with_restoreColors.
  cbn [snd colors ansi _restoreColors Restore.ansi].
  rewrite length_map, default_palette_length. auto.
Qed.

Lemma snapshot_inv_call c m applied :
  snapshot_inv m applied ->
  snapshot_inv (snd (call c m))
    (match c, fst (call c m) with
     | Call_setTheme _, Normal _ => snd (call c m)
     | _, _ => applied
     end).
Proof.
  intros (Hs & Ha & Hm). destruct c as [theme|slot|key value|bg fg v];
    cbn [call].
  - destruct (setTheme_spec theme m) as (Hc & _ & Hr).
    assert (Hlen : (256 <= List.length (ansi (colors (snd (setTheme theme m)))))%nat).
    { rewrite Hc; cbn [ansi put_palette].
      eapply Nat.le_trans; [exact Hm | apply write_all_length]. }
    destruct (snd (write_all _ _ _)).
    + destruct Hr as (-> & _ & Hr).
      unfold snapshot_inv. rewrite Hr, <- Hc. cbn. auto.
    + destruct Hr as ((e & ->) & _ & Hr).
      unfold snapshot_inv. rewrite Hr. auto.
  - destruct (restoreColor_frame slot m) as (Hr & _ & Hs' & _ & Hl).
    unfold snapshot_inv. rewrite Hs'. repeat split; auto; lia.
  - destruct (onOptionsChange_frame key value m) as (Hc & Hs').
    unfold snapshot_inv. rewrite Hc, Hs'. auto.
  - cbn. unfold snapshot_inv; auto.
Qed.

Lemma snapshot_inv_run calls : forall m applied,
  snapshot_inv m applied ->
  snapshot_inv (fst (run calls m applied)) (snd (run calls m applied)).
Proof.
  induction calls as [|c rest IH]; intros m applied H; [exact H|].
  cbn [run]. pose proof (snapshot_inv_call c m applied H) as H'.
  destruct (call c m) as [r m'] eqn:E. cbn [fst snd] in H'.
  apply IH. destruct c; rewrite ?E in H'; exact H'.
Qed.

(** ** The properties of the specification *)

(** C2. The default palette is a constant of 256 entries.  For every index
    [i] in 16..231 the entry is the opaque colour whose red, green and blue
    are the entries [⌊(i-16)/36⌋ mod 6], [⌊(i-16)/6⌋ mod 6] and
    [(i-16) mod 6] of the table [0x00, 0x5f, 0x87, 0xaf, 0xd7, 0xff]; for
    every index in 232..255 it is the opaque grey of level
    [8 + 10 (i - 232)]. *)
Theorem default_palette_documented :
  List.length DEFAULT_ANSI_COLORS = 256%nat /\
  (forall i : Z, 16 <= i <= 231 ->
     let step := fun k => nth (Z.to_nat k) [0x00; 0x5f; 0x87; 0xaf; 0xd7; 0xff] 0 in
     let r := step (((i - 16) / 36) mod 6) in
     let g := step (((i - 16) / 6) mod 6) in
     let b := step ((i - 16) mod 6) in
     nth_error DEFAULT_ANSI_COLORS (Z.to_nat i)
     = Some {| css := toCss r g b None; rgba := toRgba r g b None |} /\
     red (toRgba r g b None) = r /\ green (toRgba r g b None) = g /\
     blue (toRgba r g b None) = b /\ alpha (toRgba r g b None) = 255) /\
  (forall i : Z, 232 <= i <= 255 ->
     let c := 8 + 10 * (i - 232) in
     nth_error DEFAULT_ANSI_COLORS (Z.to_nat i)
     = Some {| css := toCss c c c None; rgba := toRgba c c c None |} /\
     red (toRgba c c c None) = c /\ green (toRgba c c c None) = c /\
     blue (toRgba c c c None) = c /\ alpha (toRgba c c c None) = 255).
Proof.
  split; [exact default_palette_length|]. split.
  - intros i Hi step r g b.
    assert (Hk : (Z.to_nat (i - 16) < 216)%nat) by lia.
    destruct (cube_index_floor _ Hk) as (E36 & E6 & E1).
    rewrite Z2Nat.id in E36, E6, E1 by lia.
    split.
    + replace (Z.to_nat i) with (16 + Z.to_nat (i - 16))%nat by lia.
      rewrite default_palette_cube by exact Hk.
      rewrite Z2Nat.id by lia. unfold cube_color.
      rewrite E36, E6, E1. reflexivity.
    + change (toRgba r g b None) with (toRgba r g b (Some 255)).
      apply toRgba_channels; try lia; apply (v_at_range _).
  - intros i Hi c.
    assert (Hk : (Z.to_nat (i - 232) < 24)%nat) by lia.
    split.
    + replace (Z.to_nat i) with (232 + Z.to_nat (i - 232))%nat by lia.
      rewrite default_palette_grey by exact Hk.
      rewrite Z2Nat.id by lia. unfold grey_color.
      replace (8 + (i - 232) * 10) with c by (unfold c; lia). reflexivity.
    + change (toRgba c c c None) with (toRgba c c c (Some 255)).
      apply toRgba_channels; unfold c; lia.
Qed.

(** C5. [_parseColor] always returns when its fallback is a colour.  An
    absent input gives the fallback with no validation at all; a string the
    engine rejects, and a colour that is not fully opaque while transparency
    is not allowed, each write one warning and give the fallback. *)
Theorem parseColor_falls_back :
  (forall fallback arg m,
     _parseColor None (Some fallback) arg m = (Normal Fallback, m)) /\
  (forall s fallback arg m,
     engine s = None ->
     fst (_parseColor (Some s) (Some fallback) arg m) = Normal Fallback /\
     console (snd (_parseColor (Some s) (Some fallback) arg m))
     = ("Color: " ++ s ++ " is invalid using fallback " ++ css fallback)%string
       :: console m) /\
  (forall s r fallback arg m,
     engine s = Some r -> u8 (data3 (rendered r)) <> 0xFF ->
     effective arg m = false ->
     fst (_parseColor (Some s) (Some fallback) arg m) = Normal Fallback /\
     console (snd (_parseColor (Some s) (Some fallback) arg m))
     = ("Color: " ++ s
        ++ " is using transparency, but allowTransparency is false. "
        ++ "Using fallback " ++ css fallback ++ ".")%string
       :: console m) /\
  (forall input fallback arg m,
     exists p, fst (_parseColor input (Some fallback) arg m) = Normal p /\
               (pick fallback p = fallback \/ p = Fresh (pick fallback p))).
Proof.
  split; [|split; [|split]].
  - intros fallback arg m. rewrite parse_eq. reflexivity.
  - intros s fallback arg m He.
    rewrite parse_eq. unfold verdict. rewrite He. split; reflexivity.
  - intros s r fallback arg m He Ha Hallow.
    rewrite parse_eq. unfold verdict. rewrite He, Hallow.
    apply Z.eqb_neq in Ha. rewrite Ha. split; reflexivity.
  - intros input fallback arg m. rewrite parse_eq.
    destruct input as [s|]; [|eexists; split; [reflexivity | left; reflexivity]].
    cbv zeta. destruct (verdict (Some s) (effective arg m));
      eexists; (split; [reflexivity | simpl; auto]).
Qed.

(** C6. A string the engine accepts and paints fully opaque gives a colour
    whose CSS text is the engine's serialisation of it (the input string
    plays no part) and whose packed value holds the three channels read
    back from the pixel, with alpha [0xFF]. *)
Theorem parseColor_opaque s r fallback arg m :
  engine s = Some r -> u8 (data3 (rendered r)) = 0xFF ->
  let data := rendered r in
  let c := {| css := serialized r;
              rgba := toRgba (u8 (data0 data)) (u8 (data1 data))
                             (u8 (data2 data)) (Some 0xFF) |} in
  fst (_parseColor (Some s) fallback arg m) = Normal (Fresh c) /\
  red (rgba c) = u8 (data0 data) /\ green (rgba c) = u8 (data1 data) /\
  blue (rgba c) = u8 (data2 data) /\ alpha (rgba c) = 0xFF.
Proof.
  intros He Ha data c. split.
  - rewrite parse_eq. unfold verdict. rewrite He. cbv zeta.
    rewrite Ha. reflexivity.
  - apply toRgba_channels; try apply u8_range. lia.
Qed.

(** *** Doubles: rounding to the nearest *)












(** *** The pieces of a serialised colour *)











(** C1 (amended).  [setTheme], whenever it returns, leaves the contrast
    cache empty: the cache is cleared during the call.  [restoreColor], with
    or without a slot, does not touch the cache: it is after the call what it
    was before. *)
Theorem cache_cleared_by_setTheme :
  (forall theme m,
     fst (setTheme theme m) = Normal tt ->
     contrastCache (snd (setTheme theme m)) = []) /\
  (forall slot m,
     contrastCache (snd (restoreColor slot m)) = contrastCache m).
Proof.
  split.
  - intros theme m Hr. destruct (setTheme_spec theme m) as (_ & _ & H).
    destruct (snd (write_all _ _ _)).
    + apply H.
    + destruct H as ((e & He) & _). congruence.
  - intros slot m. apply restoreColor_frame.
Qed.

Lemma opacity_channels (c : IColor) :
  alpha (rgba (opacity c (3 # 10))) = 77 /\
  red (rgba (opacity c (3 # 10))) = red (rgba c) /\
  green (rgba (opacity c (3 # 10))) = green (rgba c) /\
  blue (rgba (opacity c (3 # 10))) = blue (rgba c).
Proof.
  unfold opacity. cbn [rgba].
  change (ToInt32 (Math_round (js_mul (Num (3 # 10)) 255))) with 77.
  destruct (channel_range (rgba c)) as (Hr & Hg & Hb & _).
  destruct (toRgba_channels (red (rgba c)) (green (rgba c)) (blue (rgba c)) 77)
    as (? & ? & ? & ?); auto; lia.
Qed.

(** C4.  When the theme's selection string resolves, transparency allowed,
    to a fully opaque colour [c], [setTheme] leaves in [selectionTransparent]
    the colour [c] with an opacity of 0.3: the red, green and blue of [c]
    and the alpha [0x4D], the alpha of the default selection
    [rgba(255, 255, 255, 0.3)]; never the opaque [c] itself. *)
Theorem opaque_selection_made_translucent theme m s c :
  Theme.selection theme = Some s ->
  fst (_parseColor (Some s) (Some DEFAULT_SELECTION) (Some true) m)
  = Normal (Fresh c) ->
  isOpaque c = true ->
  let sel := selectionTransparent (colors (snd (setTheme theme m))) in
  sel = opacity c (3 # 10) /\
  alpha (rgba sel) = 0x4D /\ alpha (rgba sel) = alpha (rgba DEFAULT_SELECTION) /\
  red (rgba sel) = red (rgba c) /\ green (rgba sel) = green (rgba c) /\
  blue (rgba sel) = blue (rgba c) /\ isOpaque sel = false.
Proof.
  intros Hs Hp Hop sel.
  assert (E : sel = opacity c (3 # 10)).
  { unfold sel. rewrite setTheme_colors. unfold themed.
    cbn [fst put_palette structural selectionTransparent].
    rewrite parse_eq in Hp. cbv zeta in Hp. cbn [effective] in Hp.
    unfold resolve, parsed. rewrite Hs.
    destruct (verdict (Some s) true) as [|line|c']; simpl in Hp;
      try discriminate.
    injection Hp as ->. cbn [pick]. rewrite Hop. reflexivity. }
  rewrite E. destruct (opacity_channels c) as (Ha & Hr & Hg & Hb).
  repeat split; auto.
  unfold isOpaque. rewrite Ha. reflexivity.
Qed.

(** What [restoreColor()] does restore.  In every state a constructed
    manager reaches, [restoreColor()] returns and sets every palette slot,
    the 256 of them and any the applied theme added, to the value it had
    when the latest [setTheme] call that returned had just returned (when
    the constructor had, if no [setTheme] call returned since); the other
    colours are left as they are. *)
Theorem restoreColor_restores_applied_palette getContext allowT m0 calls :
  constructor getContext allowT = Normal m0 ->
  let m := fst (run calls m0 m0) in
  let applied := snd (run calls m0 m0) in
  let m' := snd (restoreColor None m) in
  fst (restoreColor None m) = Normal tt /\
  (256 <= List.length (ansi (colors applied)))%nat /\
  (forall i, (i < List.length (ansi (colors applied)))%nat ->
     js_get (ansi (colors m')) i = js_get (ansi (colors applied)) i) /\
  foreground (colors m') = foreground (colors m) /\
  background (colors m') = background (colors m) /\
  cursor (colors m') = cursor (colors m) /\
  cursorAccent (colors m') = cursorAccent (colors m) /\
  selectionTransparent (colors m') = selectionTransparent (colors m) /\
  selectionOpaque (colors m') = selectionOpaque (colors m) /\
  selectionForeground (colors m') = selectionForeground (colors m).
Proof.
  intros Hc m applied m'.
  destruct getContext as [ctx|]; [|discriminate].
  injection Hc as <-.
  pose proof (snapshot_inv_run calls _ _ (snapshot_inv_constructed ctx allowT))
    as (Hs & Ha & _).
  fold m in Hs. fold applied in Hs, Ha.
  unfold m'. rewrite restoreColor_all. cbn [fst snd].
  split; [reflexivity|]. split; [exact Ha|]. split; [|cbn; auto 10].
  intros i Hi. cbn [colors with_colors ansi put_palette].
  rewrite restore_from_get, Hs.
  destruct (Nat.leb_spec 0 i), (Nat.ltb_spec i (0 + List.length (ansi (colors applied))));
    simpl; try reflexivity; lia.
Qed.

(** C10.  Applying a theme twice in a row leaves the colour set the first
    application left, field by field. *)
Theorem setTheme_idempotent theme m :
  colors (snd (setTheme theme (snd (setTheme theme m))))
  = colors (snd (setTheme theme m)).
Proof.
  rewrite (setTheme_colors theme (snd (setTheme theme m))).
  rewrite setTheme_allowTransparency, setTheme_colors.
  rewrite themed_idempotent. reflexivity.
Qed.

(** The empty theme on a manager whose palette slots 16 to 255 hold the
    defaults, as they do after construction: every colour is the default. *)
Lemma empty_theme_on_default_palette m :
  ansi (colors m) = map Some DEFAULT_ANSI_COLORS ->
  colors (snd (setTheme Theme.empty m))
  = colors (constructed (_ctx m) (allowTransparency m)).
Proof.
  intros Hansi. rewrite setTheme_colors. unfold themed.
  assert (Hw : write_all (allowTransparency m) (assignments Theme.empty)
                 (ansi (colors m)) = (ansi (colors m), true)).
  { rewrite Hansi. unfold assignments, extended_assignments.
    cbn [Theme.extendedAnsi Theme.empty app Theme.black Theme.red Theme.green
         Theme.yellow Theme.blue Theme.magenta Theme.cyan Theme.white
         Theme.brightBlack Theme.brightRed Theme.brightGreen
         Theme.brightYellow Theme.brightBlue Theme.brightMagenta
         Theme.brightCyan Theme.brightWhite].
    assert (Hstep : forall i rest, (i < 256)%nat ->
      write_all (allowTransparency m) ((i, None) :: rest)
        (map Some DEFAULT_ANSI_COLORS)
      = write_all (allowTransparency m) rest (map Some DEFAULT_ANSI_COLORS)).
    { intros i rest Hi. cbn [write_all]. unfold ansi_value, parsed.
      cbn [verdict pick_opt].
      rewrite js_set_same; [reflexivity|].
      unfold DEFAULT_ANSI_COLORS_at. rewrite nth_error_map.
      destruct (default_palette_defined i Hi) as (c & Hc).
      unfold DEFAULT_ANSI_COLORS_at in Hc. rewrite Hc. reflexivity. }
    rewrite !Hstep by lia. reflexivity. }
  rewrite Hw. cbn [fst]. rewrite Hansi. reflexivity.
Qed.


(** *** The size of the palette *)

Lemma js_get_map_Some {A} (l : list A) (i : nat) :
  (i < List.length l)%nat -> exists c, js_get (map Some l) i = Some c.
Proof.
  unfold js_get. revert i; induction l as [|x t IH]; intros [|i] H;
    simpl in *; try lia; eauto. apply IH; lia.
Qed.

Lemma defined_below_set n l i v :
  defined_below n l -> ((i < n)%nat -> exists c, v = Some c) ->
  defined_below n (js_set l i v).
Proof.
  intros Hl Hv j Hj. destruct (Nat.eq_dec i j) as [->|Hij].
  - rewrite js_get_set_hit. auto.
  - rewrite js_get_set_miss by exact Hij. auto.
Qed.

Lemma ansi_value_defined a i input v :
  ansi_value a i input = Some v -> (i < 256)%nat -> exists c, v = Some c.
Proof.
  intros Hv Hi. destruct (default_palette_defined i Hi) as (d & Hd).
  unfold ansi_value in Hv. rewrite Hd in Hv.
  destruct (parsed input a) as [|c] eqn:Ep;
    destruct (verdict input a); injection Hv as <-; simpl; eauto.
Qed.

Lemma ansi_value_below a i input :
  (i < 256)%nat -> exists v, ansi_value a i input = Some v.
Proof.
  intros Hi. destruct (default_palette_defined i Hi) as (d & Hd).
  unfold ansi_value. rewrite Hd. destruct (verdict input a); eauto.
Qed.

Lemma write_all_defined a todo : forall l,
  defined_below 256 l -> defined_below 256 (fst (write_all a todo l)).
Proof.
  induction todo as [|[i input] rest IH]; intros l Hl; [exact Hl|].
  cbn [write_all]. destruct (ansi_value a i input) as [v|] eqn:E; [|exact Hl].
  apply IH, defined_below_set; [exact Hl|].
  apply (ansi_value_defined a i input v E).
Qed.

Lemma write_all_within a todo : forall l,
  Forall (fun i => (i < 256)%nat) (map fst todo) ->
  List.length l = 256%nat ->
  List.length (fst (write_all a todo l)) = 256%nat /\
  snd (write_all a todo l) = true.
Proof.
  induction todo as [|[i input] rest IH]; intros l Hi Hl; [auto|].
  cbn [map fst] in Hi. inversion Hi as [|? ? Hlt Hrest]; subst.
  cbn [write_all]. destruct (ansi_value_below a i input Hlt) as (v & ->).
  apply IH; [exact Hrest|]. rewrite js_set_length; lia.
Qed.

Lemma assignments_within theme :
  within_palette (Call_setTheme theme) ->
  Forall (fun i => (i < 256)%nat) (map fst (assignments theme)).
Proof.
  cbn [within_palette]. intros Hext. apply Forall_forall. intros i Hi.
  unfold assignments, extended_assignments in Hi.
  destruct (Theme.extendedAnsi theme) as [ext|].
  - rewrite map_app, map_map in Hi. cbn [fst] in Hi. rewrite map_id in Hi.
    apply in_app_or in Hi. destruct Hi as [Hi|Hi].
    + cbn in Hi. lia.
    + apply in_seq in Hi. lia.
  - cbn in Hi. lia.
Qed.

Lemma restore_from_within saved : forall count i l,
  (i + count <= List.length l)%nat ->
  List.length (restore_from saved count i l) = List.length l.
Proof.
  induction count as [|n IH]; intros i l H; [reflexivity|].
  cbn [restore_from]. rewrite IH; rewrite js_set_length; lia.
Qed.

Lemma palette_inv_constructed ctx a : palette_inv (constructed ctx a).
Proof.
  unfold palette_inv, constructed, _updateRestoreColors, modify,
    with_restoreColors.
  cbn [snd colors ansi _restoreColors Restore.ansi].
  rewrite length_map, default_palette_length.
  assert (H : defined_below 256 (map Some DEFAULT_ANSI_COLORS)).
  { intros i Hi. apply js_get_map_Some. rewrite default_palette_length. lia. }
  auto.
Qed.

Lemma palette_256_constructed ctx a : palette_256 (constructed ctx a).
Proof.
  unfold palette_256, constructed, _updateRestoreColors, modify,
    with_restoreColors.
  cbn [snd colors ansi _restoreColors Restore.ansi].
  rewrite length_map, default_palette_length. auto.
Qed.

Lemma palette_inv_call c m : palette_inv m -> palette_inv (snd (call c m)).
Proof.
  intros (Hl & Hd & Hsl & Hsd).
  destruct c as [theme|slot|key value|bg fg v]; cbn [call].
  - destruct (setTheme_spec theme m) as (Hc & _ & Hr).
    assert (Hl' : (256 <= List.length (ansi (colors (snd (setTheme theme m)))))%nat).
    { rewrite Hc; cbn [ansi put_palette].
      eapply Nat.le_trans; [exact Hl | apply write_all_length]. }
    assert (Hd' : defined_below 256 (ansi (colors (snd (setTheme theme m))))).
    { rewrite Hc; cbn [ansi put_palette]. apply write_all_defined, Hd. }
    unfold palette_inv. destruct (snd (write_all _ _ _)).
    + destruct Hr as (_ & _ & ->). rewrite <- Hc. cbn. auto.
    + destruct Hr as (_ & _ & ->). auto.
  - destruct slot as [slot|].
    + unfold restoreColor, palette_inv.
      destruct (Nat.eqb slot FOREGROUND); [|destruct (Nat.eqb slot BACKGROUND);
        [|destruct (Nat.eqb slot CURSOR)]]; cbn; auto.
      rewrite js_set_length. repeat split; auto; [lia|].
      apply defined_below_set; [exact Hd|]. intros Hs. apply Hsd, Hs.
    + rewrite restoreColor_all. unfold palette_inv. cbn.
      repeat split; auto.
      * eapply Nat.le_trans; [exact Hl | apply restore_from_length].
      * intros i Hi. rewrite restore_from_get.
        destruct (Nat.leb_spec 0 i),
          (Nat.ltb_spec i (0 + List.length (Restore.ansi (_restoreColors m))));
          simpl; auto; lia.
  - destruct (onOptionsChange_frame key value m) as (Hc & Hs).
    unfold palette_inv. rewrite Hc, Hs. auto.
  - cbn. unfold palette_inv. auto.
Qed.

Lemma palette_256_call c m :
  within_palette c -> palette_256 m -> palette_256 (snd (call c m)).
Proof.
  intros Hin (Hl & Hsl).
  destruct c as [theme|slot|key value|bg fg v]; cbn [call].
  - destruct (setTheme_spec theme m) as (Hc & _ & Hr).
    destruct (write_all_within (allowTransparency m) (assignments theme)
                (ansi (colors m)) (assignments_within theme Hin) Hl)
      as (Hlen & Hdone).
    rewrite Hdone in Hr. destruct Hr as (_ & _ & Hr).
    unfold palette_256. rewrite Hr, Hc. cbn. auto.
  - destruct slot as [slot|].
    + cbn [within_palette] in Hin. unfold restoreColor, palette_256.
      destruct (Nat.eqb_spec slot FOREGROUND);
        [|destruct (Nat.eqb_spec slot BACKGROUND);
          [|destruct (Nat.eqb_spec slot CURSOR)]]; cbn; auto.
      rewrite js_set_length. split; [lia | exact Hsl].
    + rewrite restoreColor_all. unfold palette_256. cbn.
      rewrite restore_from_within; auto. lia.
  - destruct (onOptionsChange_frame key value m) as (Hc & Hs).
    unfold palette_256. rewrite Hc, Hs. auto.
  - cbn. unfold palette_256. auto.
Qed.

Lemma palette_inv_run calls : forall m applied,
  palette_inv m -> palette_inv (fst (run calls m applied)).
Proof.
  induction calls as [|c rest IH]; intros m applied H; [exact H|].
  cbn [run]. pose proof (palette_inv_call c m H) as H'.
  destruct (call c m) as [r m']. apply IH, H'.
Qed.

Lemma palette_256_run calls : forall m applied,
  Forall within_palette calls -> palette_256 m ->
  palette_256 (fst (run calls m applied)).
Proof.
  induction calls as [|c rest IH]; intros m applied Hin H; [exact H|].
  inversion Hin as [|? ? Hc Hrest]; subst.
  cbn [run]. pose proof (palette_256_call c m Hc H) as H'.
  destruct (call c m) as [r m']. apply IH; [exact Hrest | exact H'].
Qed.

(** C3 (amended).  In every state a constructed manager reaches, whatever
    the themes and the slots, the palette has at least 256 entries and each
    of the entries 0 to 255 is a defined colour.  It has exactly 256 entries
    as long as no theme brought more than 240 extended colours and
    [restoreColor] was given no slot, a palette index below 256, or one of
    the three special indexes. *)
Theorem palette_size getContext allowT m0 calls :
  constructor getContext allowT = Normal m0 ->
  let m := fst (run calls m0 m0) in
  (256 <= List.length (ansi (colors m)))%nat /\
  (forall i, (i < 256)%nat -> exists c, js_get (ansi (colors m)) i = Some c) /\
  (Forall within_palette calls -> List.length (ansi (colors m)) = 256%nat).
Proof.
  intros Hc m. destruct getContext as [ctx|]; [|discriminate].
  injection Hc as <-.
  destruct (palette_inv_run calls _ (constructed ctx allowT)
              (palette_inv_constructed ctx allowT)) as (Hl & Hd & _).
  split; [exact Hl|]. split; [exact Hd|].
  intros Hin.
  apply (palette_256_run calls _ (constructed ctx allowT) Hin
           (palette_256_constructed ctx allowT)).
Qed.

(** ** Further properties of the methods *)

(** *** Helpers *)

Lemma parse_fst_defined input fallback arg m :
  fst (_parseColor input (Some fallback) arg m)
  = Normal (parsed input (effective arg m)).
Proof.
  rewrite parse_eq. unfold parsed. destruct input as [s|]; [|reflexivity].
  cbv zeta. destruct (verdict (Some s) (effective arg m)); reflexivity.
Qed.

Lemma parse_fst_slot input i m :
  match fst (_parseColor input (DEFAULT_ANSI_COLORS_at i) None m) with
  | Normal p => Some (pick_opt (DEFAULT_ANSI_COLORS_at i) p)
  | Throw _ => None
  end = ansi_value (allowTransparency m) i input.
Proof.
  rewrite parse_eq. unfold ansi_value, parsed. cbn [effective].
  destruct input as [s|]; [|reflexivity].
  cbv zeta. destruct (verdict (Some s) (allowTransparency m));
    try reflexivity.
  destruct (DEFAULT_ANSI_COLORS_at i); reflexivity.
Qed.

Lemma js_get_of_nth_error {A} (l : list (option A)) i v :
  nth_error l i = Some v -> js_get l i = v.
Proof. intros H. unfold js_get. apply nth_error_nth. exact H. Qed.

Lemma write_all_value a todo : forall l i input,
  NoDup (map fst todo) -> snd (write_all a todo l) = true ->
  In (i, input) todo ->
  exists v, ansi_value a i input = Some v /\
            nth_error (fst (write_all a todo l)) i = Some v.
Proof.
  induction todo as [|[j c] rest IH]; intros l i input Hnd Hdone Hin;
    [destruct Hin|].
  cbn [map fst] in Hnd. inversion Hnd as [|? ? Hj Hrest]; subst.
  cbn [write_all] in *.
  destruct (ansi_value a j c) as [w|] eqn:E; [|discriminate].
  destruct Hin as [Heq|Hin].
  - injection Heq as <- <-. exists w. split; [exact E|].
    apply write_all_keeps; [exact Hj | apply js_set_hit].
  - apply IH; assumption.
Qed.

Lemma write_all_other a todo : forall l i,
  ~ In i (map fst todo) ->
  js_get (fst (write_all a todo l)) i = js_get l i.
Proof.
  induction todo as [|[j c] rest IH]; intros l i Hi; [reflexivity|].
  cbn [map fst In] in Hi. cbn [write_all].
  destruct (ansi_value a j c) as [w|]; [|reflexivity].
  rewrite IH by tauto. apply js_get_set_miss. tauto.
Qed.

Lemma run_invariant (P : ColorManager -> Prop) :
  (forall c m, P m -> P (snd (call c m))) ->
  forall calls m applied, P m -> P (fst (run calls m applied)).
Proof.
  intros Hstep calls; induction calls as [|c rest IH]; intros m applied H;
    [exact H|].
  cbn [run]. pose proof (Hstep c m H) as H'.
  destruct (call c m) as [r m']. apply IH, H'.
Qed.

(** *** [_parseColor] *)

(** X1.  Validation does not depend on what the canvas held before the call
    (the litmus gradient is put into [fillStyle] first, so a string the
    engine rejects is never mistaken for the colour validated before it),
    and it leaves the colour set, the cache, the snapshot and the
    [allowTransparency] flag as they were. *)
Theorem parseColor_ignores_canvas input fallback arg m ctx' :
  fst (_parseColor input fallback arg (with_ctx (fun _ => ctx') m))
  = fst (_parseColor input fallback arg m) /\
  colors (snd (_parseColor input fallback arg m)) = colors m /\
  _contrastCache (snd (_parseColor input fallback arg m)) = _contrastCache m /\
  _restoreColors (snd (_parseColor input fallback arg m)) = _restoreColors m /\
  allowTransparency (snd (_parseColor input fallback arg m))
  = allowTransparency m.
Proof.
  rewrite !parse_eq.
  replace (effective arg (with_ctx (fun _ => ctx') m)) with (effective arg m)
    by (destruct arg; reflexivity).
  destruct input as [s|]; [|auto].
  cbv zeta. destruct (verdict (Some s) (effective arg m)); [auto | | auto].
  destruct fallback; auto.
Qed.

(** X2.  With an [undefined] fallback, as [setTheme] passes for palette
    slots from 256 on: an absent input gives [undefined] back; a string the
    engine rejects, or a translucent colour while transparency is off,
    throws a [TypeError] and writes no warning; an accepted colour is
    returned as with any fallback. *)
Theorem parseColor_undefined_fallback :
  (forall arg m, _parseColor None None arg m = (Normal Fallback, m)) /\
  (forall s arg m,
     engine s = None ->
     fst (_parseColor (Some s) None arg m)
     = Throw "TypeError: Cannot read properties of undefined (reading 'css')"
     /\ console (snd (_parseColor (Some s) None arg m)) = console m) /\
  (forall s r arg m,
     engine s = Some r -> u8 (data3 (rendered r)) <> 0xFF ->
     effective arg m = false ->
     fst (_parseColor (Some s) None arg m)
     = Throw "TypeError: Cannot read properties of undefined (reading 'css')"
     /\ console (snd (_parseColor (Some s) None arg m)) = console m) /\
  (forall s r arg m,
     engine s = Some r ->
     u8 (data3 (rendered r)) = 0xFF \/ effective arg m = true ->
     exists c, fst (_parseColor (Some s) None arg m) = Normal (Fresh c) /\
               console (snd (_parseColor (Some s) None arg m)) = console m).
Proof.
  split; [|split; [|split]].
  - intros arg m. rewrite parse_eq. reflexivity.
  - intros s arg m He. rewrite parse_eq. unfold verdict. rewrite He.
    split; reflexivity.
  - intros s r arg m He Ha Hallow. rewrite parse_eq. unfold verdict.
    rewrite He, Hallow. apply Z.eqb_neq in Ha. rewrite Ha. split; reflexivity.
  - intros s r arg m He Hor. rewrite parse_eq. unfold verdict. rewrite He.
    cbv zeta. destruct (u8 (data3 (rendered r)) =? 255) eqn:Ea; cbn.
    + eexists; split; reflexivity.
    + destruct Hor as [Ha | Hallow].
      * apply Z.eqb_neq in Ea. contradiction.
      * rewrite Hallow. cbn. eexists; split; reflexivity.
Qed.

(** *** [setTheme] *)

(** The four plain roles after [setTheme], in terms of [parsed]. *)
Lemma setTheme_plain_roles theme m :
  let c := colors (snd (setTheme theme m)) in
  let a := allowTransparency m in
  foreground c = pick DEFAULT_FOREGROUND (parsed (Theme.foreground theme) a) /\
  background c = pick DEFAULT_BACKGROUND (parsed (Theme.background theme) a) /\
  cursor c = pick DEFAULT_CURSOR (parsed (Theme.cursor theme) true) /\
  cursorAccent c
  = pick DEFAULT_CURSOR_ACCENT (parsed (Theme.cursorAccent theme) true).
Proof.
  intros c a. unfold c, a. rewrite setTheme_colors. unfold themed.
  cbn [fst put_palette structural foreground background cursor cursorAccent].
  unfold resolve. auto.
Qed.

(** X3.  Each colour role of a theme is resolved on its own: after
    [setTheme], returned or thrown, foreground and background hold what
    [_parseColor] makes of the role's string against the role's default with
    the manager's [allowTransparency]; cursor and cursorAccent the same with
    transparency allowed; [selectionOpaque] is the blend of the new
    background with the selection colour as resolved, before any opacity is
    given to it; [selectionTransparent] is that colour, with opacity 0.3 if
    it was opaque. *)
Theorem setTheme_resolves_roles theme m :
  let value := fun fallback arg input =>
    match fst (_parseColor input (Some fallback) arg m) with
    | Normal p => pick fallback p
    | Throw _ => fallback
    end in
  let c := colors (snd (setTheme theme m)) in
  let sel := value DEFAULT_SELECTION (Some true) (Theme.selection theme) in
  foreground c = value DEFAULT_FOREGROUND None (Theme.foreground theme) /\
  background c = value DEFAULT_BACKGROUND None (Theme.background theme) /\
  cursor c = value DEFAULT_CURSOR (Some true) (Theme.cursor theme) /\
  cursorAccent c
  = value DEFAULT_CURSOR_ACCENT (Some true) (Theme.cursorAccent theme) /\
  selectionOpaque c = blend (background c) sel /\
  selectionTransparent c = (if isOpaque sel then opacity sel (3 # 10) else sel).
Proof.
  intros value c sel. unfold c, sel, value.
  rewrite setTheme_colors, !parse_fst_defined. unfold themed.
  cbn [fst put_palette structural foreground background cursor cursorAccent
       selectionOpaque selectionTransparent effective].
  unfold resolve. auto 7.
Qed.

(** X4.  A colour that is not fully opaque, while [allowTransparency] is
    off: as foreground or background it is refused and the default is used;
    as cursor or cursorAccent it is accepted, and the role holds the colour
    [_parseColor] makes of it with transparency allowed, under the string as
    the theme wrote it. *)
Theorem transparency_by_role theme m s r :
  engine s = Some r -> u8 (data3 (rendered r)) <> 0xFF ->
  allowTransparency m = false ->
  let c := colors (snd (setTheme theme m)) in
  (Theme.foreground theme = Some s -> foreground c = DEFAULT_FOREGROUND) /\
  (Theme.background theme = Some s -> background c = DEFAULT_BACKGROUND) /\
  (Theme.cursor theme = Some s ->
     css (cursor c) = s /\
     fst (_parseColor (Some s) (Some DEFAULT_CURSOR) (Some true) m)
     = Normal (Fresh (cursor c))) /\
  (Theme.cursorAccent theme = Some s ->
     css (cursorAccent c) = s /\
     fst (_parseColor (Some s) (Some DEFAULT_CURSOR_ACCENT) (Some true) m)
     = Normal (Fresh (cursorAccent c))).
Proof.
  intros He Ha Hallow c. apply Z.eqb_neq in Ha.
  destruct (setTheme_plain_roles theme m) as (Hfg & Hbg & Hcur & Hacc).
  fold c in Hfg, Hbg, Hcur, Hacc. cbv zeta in Hfg, Hbg.
  assert (Hyes : parsed (Some s) true
                 = Fresh (pick DEFAULT_CURSOR (parsed (Some s) true)) /\
                 css (pick DEFAULT_CURSOR (parsed (Some s) true)) = s /\
                 pick DEFAULT_CURSOR_ACCENT (parsed (Some s) true)
                 = pick DEFAULT_CURSOR (parsed (Some s) true)).
  { unfold parsed, verdict. rewrite He; cbv zeta. rewrite Ha. cbn. auto. }
  assert (Hno : parsed (Some s) false = Fallback).
  { unfold parsed, verdict. rewrite He; cbv zeta. rewrite Ha. reflexivity. }
  destruct Hyes as (Hfresh & Hcss & Hsame).
  split; [|split; [|split]]; intros Hs.
  - rewrite Hfg, Hs, Hallow, Hno. reflexivity.
  - rewrite Hbg, Hs, Hallow, Hno. reflexivity.
  - rewrite parse_fst_defined. cbn [effective]. rewrite Hcur, Hs.
    split; [exact Hcss | f_equal; exact Hfresh].
  - rewrite parse_fst_defined. cbn [effective]. rewrite Hacc, Hs, Hsame.
    split; [exact Hcss | f_equal; exact Hfresh].
Qed.

(** X5.  [selectionForeground] after [setTheme]: absent when the theme has
    none, an empty one, one the engine rejects, or a translucent one while
    transparency is off; otherwise the colour [_parseColor] makes of it.  The
    null colour that serves as fallback is never stored. *)
Theorem selectionForeground_cases theme m :
  let sf := selectionForeground (colors (snd (setTheme theme m))) in
  (Theme.selectionForeground theme = None -> sf = None) /\
  (Theme.selectionForeground theme = Some ""%string -> sf = None) /\
  (forall s, Theme.selectionForeground theme = Some s ->
     engine s = None -> sf = None) /\
  (forall s r, Theme.selectionForeground theme = Some s ->
     engine s = Some r -> u8 (data3 (rendered r)) <> 0xFF ->
     allowTransparency m = false -> sf = None) /\
  (forall s c, Theme.selectionForeground theme = Some s -> s <> ""%string ->
     fst (_parseColor (Some s) (Some nullColor) None m) = Normal (Fresh c) ->
     sf = Some c) /\
  sf <> Some nullColor.
Proof.
  intros sf.
  assert (E : sf = match Theme.selectionForeground theme with
                   | Some s =>
                       if String.eqb s "" then None
                       else match parsed (Some s) (allowTransparency m) with
                            | Fresh c => Some c
                            | Fallback => None
                            end
                   | None => None
                   end).
  { unfold sf. rewrite setTheme_colors. reflexivity. }
  split; [|split; [|split; [|split; [|split]]]].
  - intros H. rewrite E, H. reflexivity.
  - intros H. rewrite E, H. reflexivity.
  - intros s H He. rewrite E, H. destruct (String.eqb s ""); [reflexivity|].
    unfold parsed, verdict. rewrite He. reflexivity.
  - intros s r H He Ha Hallow. rewrite E, H.
    destruct (String.eqb s ""); [reflexivity|].
    unfold parsed, verdict. rewrite He, Hallow; cbv zeta.
    apply Z.eqb_neq in Ha. rewrite Ha. reflexivity.
  - intros s c H Hne Hp. rewrite E, H.
    apply String.eqb_neq in Hne. rewrite Hne.
    rewrite parse_fst_defined in Hp. cbn [effective] in Hp.
    injection Hp as ->. reflexivity.
  - rewrite E. destruct (Theme.selectionForeground theme) as [s|];
      [|discriminate].
    destruct (String.eqb s "") eqn:Es; [discriminate|].
    unfold parsed, verdict. destruct (engine s) as [r|]; [|discriminate].
    cbv zeta. destruct (u8 (data3 (rendered r)) =? 255) eqn:Ea; cbn.
    + unfold nullColor. intros H. injection H as _ Hrgba.
      apply Z.eqb_eq in Ea. rewrite Ea in Hrgba.
      destruct (toRgba_channels (u8 (data0 (rendered r)))
                  (u8 (data1 (rendered r))) (u8 (data2 (rendered r))) 255)
        as (_ & _ & _ & Halpha); try apply u8_range; try lia.
      rewrite Hrgba in Halpha. discriminate.
    + destruct (allowTransparency m); cbn; [|discriminate].
      unfold nullColor. intros H. injection H as Hcss _.
      apply String.eqb_neq in Es. congruence.
Qed.

Lemma slot_value i input m v :
  ansi_value (allowTransparency m) i input = Some v ->
  match fst (_parseColor input (DEFAULT_ANSI_COLORS_at i) None m) with
  | Normal p => pick_opt (DEFAULT_ANSI_COLORS_at i) p
  | Throw _ => None
  end = v.
Proof.
  intros Hv. pose proof (parse_fst_slot input i m) as H. rewrite Hv in H.
  destruct (fst (_parseColor input (DEFAULT_ANSI_COLORS_at i) None m));
    congruence.
Qed.

Lemma setTheme_completed theme m :
  fst (setTheme theme m) = Normal tt <->
  snd (write_all (allowTransparency m) (assignments theme)
         (ansi (colors m))) = true.
Proof.
  destruct (setTheme_spec theme m) as (_ & _ & H).
  destruct (snd (write_all _ _ _)).
  - split; [reflexivity | intros _; apply H].
  - destruct H as ((e & He) & _). split; [congruence | discriminate].
Qed.

Lemma verdict_warned input a line :
  verdict input a = Warned line ->
  exists s, input = Some s /\
    (engine s = None \/
     exists r, engine s = Some r /\ u8 (data3 (rendered r)) <> 0xFF /\
               a = false).
Proof.
  destruct input as [s|]; [|discriminate]. unfold verdict.
  intros H. exists s. split; [reflexivity|].
  destruct (engine s) as [r|]; [|left; reflexivity].
  right. exists r. cbv zeta in H.
  destruct (u8 (data3 (rendered r)) =? 255) eqn:Ea; cbn in H;
    [discriminate|].
  destruct a; [discriminate|]. apply Z.eqb_neq in Ea. auto.
Qed.

Lemma verdict_refused s a :
  engine s = None \/
  (exists r, engine s = Some r /\ u8 (data3 (rendered r)) <> 0xFF /\
             a = false) ->
  exists line, verdict (Some s) a = Warned line.
Proof.
  unfold verdict. intros [He | (r & He & Ha & ->)]; rewrite He.
  - eauto.
  - cbv zeta. apply Z.eqb_neq in Ha. rewrite Ha. cbn. eauto.
Qed.

Lemma write_all_fails a todo : forall l,
  snd (write_all a todo l) = false <->
  exists i input, In (i, input) todo /\ ansi_value a i input = None.
Proof.
  induction todo as [|[j c] rest IH]; intros l; cbn [write_all].
  - split; [discriminate | intros (i & input & [] & _)].
  - destruct (ansi_value a j c) as [w|] eqn:E.
    + rewrite IH. split.
      * intros (i & input & Hin & Hv). exists i, input. split; [right|]; auto.
      * intros (i & input & [Heq|Hin] & Hv).
        -- injection Heq as <- <-. congruence.
        -- eauto.
    + split; [|reflexivity]. intros _. exists j, c. split; [left|]; auto.
Qed.

(** The palette after a [setTheme] that returned, by [assignments]: an
    assigned slot holds the value of its string, any other slot is as
    before. *)
Lemma setTheme_assigned theme m :
  fst (setTheme theme m) = Normal tt ->
  let after := ansi (colors (snd (setTheme theme m))) in
  (forall i input,
     In (i, input) (assignments theme) ->
     js_get after i
     = match fst (_parseColor input (DEFAULT_ANSI_COLORS_at i) None m) with
       | Normal p => pick_opt (DEFAULT_ANSI_COLORS_at i) p
       | Throw _ => None
       end) /\
  (forall i, ~ In i (map fst (assignments theme)) ->
             js_get after i = js_get (ansi (colors m)) i).
Proof.
  intros Hret after.
  apply setTheme_completed in Hret.
  assert (Eafter : after = fst (write_all (allowTransparency m)
                                  (assignments theme) (ansi (colors m)))).
  { unfold after. rewrite setTheme_colors. reflexivity. }
  split.
  - intros i input Hi.
    destruct (write_all_value _ _ (ansi (colors m)) i input
                (assignments_NoDup theme) Hret Hi) as (v & Hv & Hn).
    rewrite Eafter, (js_get_of_nth_error _ _ _ Hn).
    symmetry. apply slot_value, Hv.
  - intros i Hi. rewrite Eafter. apply write_all_other, Hi.
Qed.

(** Without an [extendedAnsi] list no slot from 16 on is assigned. *)
Lemma assignments_named_only theme i :
  Theme.extendedAnsi theme = None -> (16 <= i)%nat ->
  ~ In i (map fst (assignments theme)).
Proof.
  intros Hext Hi. unfold assignments, extended_assignments. rewrite Hext.
  cbn. lia.
Qed.

(** With a list, the slots from 16 up to the count are assigned the
    entries of the list. *)
Lemma assignments_extended theme ext i :
  Theme.extendedAnsi theme = Some ext ->
  (16 <= i < Nat.max (List.length ext + 16) 256)%nat ->
  In (i, nth_error ext (i - 16)) (assignments theme).
Proof.
  intros Hext Hi. unfold assignments, extended_assignments.
  rewrite Hext. apply in_or_app. right.
  apply (in_map (fun i => (i, nth_error ext (i - 16)))).
  apply in_seq. lia.
Qed.

(** A theme within the bounds of the default palette returns. *)
Lemma setTheme_returns_small theme m :
  (forall ext, Theme.extendedAnsi theme = Some ext ->
               (List.length ext <= 240)%nat) ->
  fst (setTheme theme m) = Normal tt.
Proof.
  intros Hext.
  assert (Hin : within_palette (Call_setTheme theme)).
  { cbn [within_palette]. destruct (Theme.extendedAnsi theme) as [ext|];
      [apply Hext; reflexivity | exact I]. }
  apply setTheme_completed.
  destruct (snd (write_all _ _ _)) eqn:E; [reflexivity|].
  apply write_all_fails in E. destruct E as (i & input & Hi & Hv).
  pose proof (assignments_within theme Hin) as Hall.
  rewrite Forall_forall in Hall.
  destruct (ansi_value_below (allowTransparency m) i input) as (v & Hv').
  - apply Hall. apply (in_map fst) in Hi. exact Hi.
  - congruence.
Qed.

(** X6.  The palette after a [setTheme] that returned: each of the sixteen
    named slots, and each slot from 16 up to [max(extendedAnsi.length + 16,
    256)] when the theme has an [extendedAnsi] list, holds what
    [_parseColor] makes of the slot's string (absent past the end of the
    list) against the slot's default; every other slot holds what it held
    before the call. *)
Theorem setTheme_palette theme m :
  fst (setTheme theme m) = Normal tt ->
  let slot := fun i input =>
    match fst (_parseColor input (DEFAULT_ANSI_COLORS_at i) None m) with
    | Normal p => pick_opt (DEFAULT_ANSI_COLORS_at i) p
    | Throw _ => None
    end in
  let after := ansi (colors (snd (setTheme theme m))) in
  (forall i input,
     In (i, input)
        [ (0, Theme.black theme); (1, Theme.red theme);
          (2, Theme.green theme); (3, Theme.yellow theme);
          (4, Theme.blue theme); (5, Theme.magenta theme);
          (6, Theme.cyan theme); (7, Theme.white theme);
          (8, Theme.brightBlack theme); (9, Theme.brightRed theme);
          (10, Theme.brightGreen theme); (11, Theme.brightYellow theme);
          (12, Theme.brightBlue theme); (13, Theme.brightMagenta theme);
          (14, Theme.brightCyan theme); (15, Theme.brightWhite theme) ]%nat ->
     js_get after i = slot i input) /\
  (forall ext i,
     Theme.extendedAnsi theme = Some ext ->
     (16 <= i < Nat.max (List.length ext + 16) 256)%nat ->
     js_get after i = slot i (nth_error ext (i - 16))) /\
  (forall ext i,
     Theme.extendedAnsi theme = Some ext ->
     (Nat.max (List.length ext + 16) 256 <= i)%nat ->
     js_get after i = js_get (ansi (colors m)) i) /\
  (Theme.extendedAnsi theme = None ->
   forall i, (16 <= i)%nat -> js_get after i = js_get (ansi (colors m)) i).
Proof.
  intros Hret slot after.
  destruct (setTheme_assigned theme m Hret) as (Hin & Hout).
  fold after in Hin, Hout.
  split; [|split; [|split]].
  - intros i input Hi. apply Hin. unfold assignments.
    apply in_or_app. left. exact Hi.
  - intros ext i Hext Hi. apply Hin, assignments_extended; assumption.
  - intros ext i Hext Hi. apply Hout.
    unfold assignments, extended_assignments. rewrite Hext.
    rewrite map_app, map_map. cbn [fst]. rewrite map_id.
    intros H. apply in_app_or in H. destruct H as [H|H].
    + cbn in H. lia.
    + apply in_seq in H. lia.
  - intros Hext i Hi. apply Hout, assignments_named_only; assumption.
Qed.

(** X7.  [setTheme] returns for every theme with at most 240 extended
    colours: the cache is then empty and the snapshot holds the new
    foreground, background, cursor and palette. *)
Theorem setTheme_returns_within_palette theme m :
  (forall ext, Theme.extendedAnsi theme = Some ext ->
               (List.length ext <= 240)%nat) ->
  let m' := snd (setTheme theme m) in
  fst (setTheme theme m) = Normal tt /\
  contrastCache m' = [] /\
  Restore.foreground (_restoreColors m') = foreground (colors m') /\
  Restore.background (_restoreColors m') = background (colors m') /\
  Restore.cursor (_restoreColors m') = cursor (colors m') /\
  Restore.ansi (_restoreColors m') = ansi (colors m').
Proof.
  intros Hext m'.
  pose proof (setTheme_returns_small theme m Hext) as Hdone.
  apply setTheme_completed in Hdone.
  destruct (setTheme_spec theme m) as (Hc & _ & H). rewrite Hdone in H.
  destruct H as (Hr & Hk & Hs). fold m' in Hc, Hk, Hs.
  split; [exact Hr|]. split; [exact Hk|]. rewrite Hs, <- Hc. cbn. auto.
Qed.

(** X8.  [setTheme] throws exactly when the theme has an extended colour at
    position 240 or later (palette slot 256 or later, which has no default
    to fall back on) that the engine rejects, or that is translucent while
    [allowTransparency] is off.  When it throws, the cache and the snapshot
    are those from before the call. *)
Theorem setTheme_throws_iff theme m :
  ((exists e, fst (setTheme theme m) = Throw e) <->
   exists ext k s,
     Theme.extendedAnsi theme = Some ext /\ (240 <= k)%nat /\
     nth_error ext k = Some s /\
     (engine s = None \/
      exists r, engine s = Some r /\ u8 (data3 (rendered r)) <> 0xFF /\
                allowTransparency m = false)) /\
  (forall e, fst (setTheme theme m) = Throw e ->
     _contrastCache (snd (setTheme theme m)) = _contrastCache m /\
     _restoreColors (snd (setTheme theme m)) = _restoreColors m).
Proof.
  assert (Hfail : (exists e, fst (setTheme theme m) = Throw e) <->
                  snd (write_all (allowTransparency m) (assignments theme)
                         (ansi (colors m))) = false).
  { pose proof (setTheme_completed theme m) as Hc.
    destruct (snd (write_all _ _ _)); split.
    - intros (e & He). destruct Hc as [_ Hc]. rewrite Hc in He by reflexivity.
      discriminate.
    - discriminate.
    - reflexivity.
    - intros _. destruct (fst (setTheme theme m)) as [[]|e] eqn:E; [|eauto].
      destruct Hc as [Hc _]. discriminate (Hc eq_refl). }
  split.
  - rewrite Hfail, write_all_fails. split.
    + intros (i & input & Hi & Hv).
      assert (Hbig : (256 <= i)%nat).
      { destruct (Nat.le_gt_cases 256 i) as [H|H]; [exact H|].
        destruct (ansi_value_below (allowTransparency m) i input H)
          as (v & Hv'). congruence. }
      unfold assignments, extended_assignments in Hi.
      apply in_app_or in Hi. destruct Hi as [Hi|Hi].
      { cbn in Hi.
        repeat (destruct Hi as [Hi|Hi]; [injection Hi as <- _; lia|]).
        destruct Hi. }
      destruct (Theme.extendedAnsi theme) as [ext|]; [|destruct Hi].
      apply in_map_iff in Hi. destruct Hi as (j & Hj & Hseq).
      injection Hj as -> <-. apply in_seq in Hseq.
      unfold ansi_value in Hv.
      destruct (verdict (nth_error ext (i - 16)) (allowTransparency m))
        as [|line|c] eqn:Ev; try discriminate.
      destruct (verdict_warned _ _ _ Ev) as (s & Hs & Href).
      exists ext, (i - 16)%nat, s. repeat split; auto. lia.
    + intros (ext & k & s & Hext & Hk & Hs & Href).
      exists (16 + k)%nat, (Some s). split.
      * unfold assignments, extended_assignments. rewrite Hext.
        apply in_or_app. right. apply in_map_iff. exists (16 + k)%nat.
        split.
        -- replace (16 + k - 16)%nat with k by lia. rewrite Hs. reflexivity.
        -- apply in_seq.
           assert (k < List.length ext)%nat
             by (apply nth_error_Some; congruence).
           lia.
      * unfold ansi_value.
        destruct (verdict_refused s (allowTransparency m) Href) as (line & ->).
        rewrite default_palette_undefined by lia. reflexivity.
  - intros e He. destruct (setTheme_spec theme m) as (_ & _ & H).
    destruct (snd (write_all _ _ _)).
    + destruct H as (H & _). congruence.
    + destruct H as (_ & Hk & Hs). auto.
Qed.

(** X9.  The extended palette under a theme: without an [extendedAnsi]
    list the slots from 16 on keep the colours of the theme before; with a
    list, every slot of 16..255 past the end of the list is set back to its
    default. *)
Theorem extended_palette_kept_or_reset theme m :
  let after := ansi (colors (snd (setTheme theme m))) in
  (Theme.extendedAnsi theme = None ->
   forall i, (16 <= i)%nat -> js_get after i = js_get (ansi (colors m)) i) /\
  (forall ext i,
     Theme.extendedAnsi theme = Some ext ->
     (16 <= i < 256)%nat -> (List.length ext <= i - 16)%nat ->
     js_get after i = DEFAULT_ANSI_COLORS_at i).
Proof.
  intros after. split.
  - intros Hext.
    assert (Hret : fst (setTheme theme m) = Normal tt).
    { apply setTheme_returns_small. intros ext H. congruence. }
    intros i Hi. apply (setTheme_assigned theme m Hret).
    apply assignments_named_only; assumption.
  - intros ext i Hext Hi Hlen.
    assert (Hret : fst (setTheme theme m) = Normal tt).
    { apply setTheme_returns_small. intros ext' H.
      assert (ext' = ext) by congruence. subst. lia. }
    destruct (setTheme_assigned theme m Hret) as (Hslot & _).
    unfold after.
    rewrite (Hslot i (nth_error ext (i - 16)))
      by (apply assignments_extended; [assumption | lia]).
    assert (Hnone : nth_error ext (i - 16) = None)
      by (apply nth_error_None; exact Hlen).
    rewrite Hnone, parse_eq. reflexivity.
Qed.

(** *** [restoreColor] *)

Lemma snapshot_full_call c m applied :
  _restoreColors m = snapshot (colors applied) ->
  _restoreColors (snd (call c m))
  = snapshot (colors (match c, fst (call c m) with
                      | Call_setTheme _, Normal _ => snd (call c m)
                      | _, _ => applied
                      end)).
Proof.
  intros Hs. destruct c as [theme|slot|key value|bg fg v]; cbn [call].
  - destruct (setTheme_spec theme m) as (Hc & _ & Hr).
    destruct (snd (write_all _ _ _)).
    + destruct Hr as (-> & _ & Hr). rewrite Hr, <- Hc. reflexivity.
    + destruct Hr as ((e & ->) & _ & Hr). rewrite Hr. exact Hs.
  - destruct (restoreColor_frame slot m) as (_ & _ & -> & _). exact Hs.
  - destruct (onOptionsChange_frame key value m) as (_ & ->). exact Hs.
  - exact Hs.
Qed.

Lemma snapshot_full_run calls : forall m applied,
  _restoreColors m = snapshot (colors applied) ->
  _restoreColors (fst (run calls m applied))
  = snapshot (colors (snd (run calls m applied))).
Proof.
  induction calls as [|c rest IH]; intros m applied H; [exact H|].
  cbn [run]. pose proof (snapshot_full_call c m applied H) as H'.
  destruct (call c m) as [r m'] eqn:E. cbn [fst snd] in H'.
  apply IH. destruct c; rewrite ?E in H'; exact H'.
Qed.

Lemma snapshot_full_reached ctx allowT calls :
  let m0 := constructed ctx allowT in
  _restoreColors (fst (run calls m0 m0))
  = snapshot (colors (snd (run calls m0 m0))).
Proof. apply snapshot_full_run. reflexivity. Qed.

(** X10.  In every state a constructed manager reaches, the three special
    indexes being distinct: [restoreColor(FOREGROUND)] sets the foreground
    to what it was when the latest [setTheme] that returned (or the
    constructor) had ended, [restoreColor(BACKGROUND)] and
    [restoreColor(CURSOR)] do the same for the background and the cursor;
    each leaves every other colour as it is, the palette and
    [selectionOpaque] included. *)
Theorem restoreColor_special_slots getContext allowT m0 calls :
  constructor getContext allowT = Normal m0 ->
  FOREGROUND <> BACKGROUND -> FOREGROUND <> CURSOR -> BACKGROUND <> CURSOR ->
  let m := fst (run calls m0 m0) in
  let applied := snd (run calls m0 m0) in
  colors (snd (restoreColor (Some FOREGROUND) m))
  = put_foreground (foreground (colors applied)) (colors m) /\
  colors (snd (restoreColor (Some BACKGROUND) m))
  = put_background (background (colors applied)) (colors m) /\
  colors (snd (restoreColor (Some CURSOR) m))
  = put_cursor (cursor (colors applied)) (colors m).
Proof.
  intros Hc Hfb Hfc Hbc m applied.
  destruct getContext as [ctx|]; [|discriminate]. injection Hc as <-.
  pose proof (snapshot_full_reached ctx allowT calls) as Hs.
  cbv zeta in Hs. fold m in Hs. fold applied in Hs.
  unfold restoreColor.
  rewrite Nat.eqb_refl.
  destruct (Nat.eqb_spec BACKGROUND FOREGROUND) as [E|_]; [congruence|].
  rewrite Nat.eqb_refl.
  destruct (Nat.eqb_spec CURSOR FOREGROUND) as [E|_]; [congruence|].
  destruct (Nat.eqb_spec CURSOR BACKGROUND) as [E|_]; [congruence|].
  rewrite Nat.eqb_refl. cbn. rewrite Hs. auto.
Qed.

(** X11.  In every state a constructed manager reaches, [restoreColor(slot)]
    with a slot that is an array index (at most [2 ^ 32 - 2]) and none of
    the special indexes assigns to [ansi[slot]] what that slot held when
    the latest [setTheme] that returned (or the constructor) had ended, and
    nothing else.  For a slot below 256 the palette keeps its length and
    the slot holds a colour; for a slot past the end of the applied palette
    the slot is [undefined] and the array has grown to reach it. *)
Theorem restoreColor_palette_slot getContext allowT m0 calls slot :
  constructor getContext allowT = Normal m0 ->
  Z.of_nat slot <= 4294967294 ->
  slot <> FOREGROUND -> slot <> BACKGROUND -> slot <> CURSOR ->
  let m := fst (run calls m0 m0) in
  let applied := snd (run calls m0 m0) in
  let m' := snd (restoreColor (Some slot) m) in
  colors m' = put_ansi slot (js_get (ansi (colors applied)) slot) (colors m) /\
  ((slot < 256)%nat ->
     List.length (ansi (colors m')) = List.length (ansi (colors m)) /\
     exists c, js_get (ansi (colors m')) slot = Some c) /\
  ((List.length (ansi (colors applied)) <= slot)%nat ->
     js_get (ansi (colors m')) slot = None /\
     List.length (ansi (colors m'))
     = Nat.max (List.length (ansi (colors m))) (S slot)).
Proof.
  intros Hc _ Hf Hb Hcu m applied m'.
  destruct getContext as [ctx|]; [|discriminate]. injection Hc as <-.
  pose proof (snapshot_full_reached ctx allowT calls) as Hs.
  cbv zeta in Hs. fold m in Hs. fold applied in Hs.
  destruct (palette_inv_run calls _ (constructed ctx allowT)
              (palette_inv_constructed ctx allowT)) as (Hl & _ & _ & Hsd).
  fold m in Hl, Hsd. rewrite Hs in Hsd. cbn [snapshot Restore.ansi] in Hsd.
  assert (E : colors m'
              = put_ansi slot (js_get (ansi (colors applied)) slot) (colors m)).
  { unfold m', restoreColor.
    destruct (Nat.eqb_spec slot FOREGROUND); [contradiction|].
    destruct (Nat.eqb_spec slot BACKGROUND); [contradiction|].
    destruct (Nat.eqb_spec slot CURSOR); [contradiction|].
    cbn. rewrite Hs. reflexivity. }
  split; [exact E|]. rewrite E. cbn [ansi put_ansi].
  rewrite js_set_length, js_get_set_hit. split.
  - intros Hlt. split; [lia | apply Hsd, Hlt].
  - intros Hge. split; [|reflexivity].
    unfold js_get. apply nth_overflow. exact Hge.
Qed.

Lemma js_set_set {A} (l : list (option A)) i v :
  js_set (js_set l i v) i v = js_set l i v.
Proof. apply js_set_same, js_set_hit. Qed.

Lemma restore_from_reach saved : forall count i l,
  (0 < count)%nat ->
  (i + count <= List.length (restore_from saved count i l))%nat.
Proof.
  induction count as [|n IH]; intros i l Hn; [lia|].
  cbn [restore_from]. destruct n as [|n].
  - cbn [restore_from]. rewrite js_set_length. lia.
  - specialize (IH (S i) (js_set l i (js_get saved i))). lia.
Qed.

Lemma restore_from_fixed saved : forall count i l,
  (forall j, (i <= j < i + count)%nat ->
             nth_error l j = Some (js_get saved j)) ->
  restore_from saved count i l = l.
Proof.
  induction count as [|n IH]; intros i l H; [reflexivity|].
  cbn [restore_from]. rewrite js_set_same by (apply H; lia).
  apply IH. intros j Hj. apply H. lia.
Qed.

Lemma restore_from_idempotent saved count i l :
  restore_from saved count i (restore_from saved count i l)
  = restore_from saved count i l.
Proof.
  apply restore_from_fixed. intros j Hj.
  rewrite js_get_nth_error.
  - f_equal. rewrite restore_from_get.
    destruct (Nat.leb_spec i j), (Nat.ltb_spec j (i + count)); simpl;
      try reflexivity; lia.
  - eapply Nat.lt_le_trans; [|apply restore_from_reach; lia]. lia.
Qed.

(** X12.  [restoreColor] is idempotent: a second call with the same slot,
    or a second call without slot, changes no colour. *)
Theorem restoreColor_idempotent slot m :
  colors (snd (restoreColor slot (snd (restoreColor slot m))))
  = colors (snd (restoreColor slot m)).
Proof.
  destruct slot as [slot|].
  - unfold restoreColor.
    destruct (Nat.eqb slot FOREGROUND); [|destruct (Nat.eqb slot BACKGROUND);
      [|destruct (Nat.eqb slot CURSOR)]]; cbn; try reflexivity.
    unfold put_ansi; cbn. rewrite js_set_set. reflexivity.
  - rewrite !restoreColor_all. cbn.
    rewrite restore_from_idempotent. reflexivity.
Qed.

Lemma restore_from_self (l : list (option IColor)) :
  restore_from l (List.length l) 0 l = l.
Proof.
  apply restore_from_fixed. intros j Hj. apply js_get_nth_error. lia.
Qed.

(** X13.  Right after a [setTheme] that returned, [restoreColor] changes
    no colour: without a slot, with a special index, or with a slot inside
    the palette. *)
Theorem restoreColor_after_setTheme theme m slot :
  fst (setTheme theme m) = Normal tt ->
  let m' := snd (setTheme theme m) in
  match slot with
  | Some s =>
      (s < List.length (ansi (colors m')))%nat \/ s = FOREGROUND \/
      s = BACKGROUND \/ s = CURSOR
  | None => True
  end ->
  colors (snd (restoreColor slot m')) = colors m'.
Proof.
  intros Hret m' Hslot.
  assert (Hs : _restoreColors m' = snapshot (colors m')).
  { destruct (setTheme_spec theme m) as (Hc & _ & H).
    apply setTheme_completed in Hret. rewrite Hret in H.
    destruct H as (_ & _ & H). unfold m'. rewrite H, <- Hc. reflexivity. }
  destruct slot as [s|].
  - unfold restoreColor.
    destruct (Nat.eqb_spec s FOREGROUND) as [_|Hf];
      [|destruct (Nat.eqb_spec s BACKGROUND) as [_|Hb];
        [|destruct (Nat.eqb_spec s CURSOR) as [_|Hcu]]];
      cbn; rewrite Hs; cbn; try (destruct (colors m'); reflexivity).
    assert (Hlt : (s < List.length (ansi (colors m')))%nat) by tauto.
    unfold put_ansi. rewrite js_set_same by (apply js_get_nth_error, Hlt).
    destruct (colors m'); reflexivity.
  - rewrite restoreColor_all. cbn. rewrite Hs. cbn.
    rewrite restore_from_self. destruct (colors m'); reflexivity.
Qed.

(** *** The selection colour *)

Lemma selection_translucent_after_setTheme theme m :
  isOpaque (selectionTransparent (colors (snd (setTheme theme m)))) = false.
Proof.
  rewrite setTheme_colors. unfold themed.
  cbn [fst put_palette structural selectionTransparent].
  destruct (isOpaque (resolve (Theme.selection theme) DEFAULT_SELECTION true))
    eqn:E; [|exact E].
  unfold isOpaque. destruct (opacity_channels
    (resolve (Theme.selection theme) DEFAULT_SELECTION true)) as (-> & _).
  reflexivity.
Qed.

(** X14.  In every state a constructed manager reaches, whatever the themes
    applied (and whether [setTheme] returned or threw), the colour in
    [selectionTransparent] is not fully opaque. *)
Theorem selection_never_opaque getContext allowT m0 calls :
  constructor getContext allowT = Normal m0 ->
  isOpaque (selectionTransparent (colors (fst (run calls m0 m0)))) = false.
Proof.
  intros Hc. destruct getContext as [ctx|]; [|discriminate].
  injection Hc as <-.
  apply (run_invariant
           (fun m => isOpaque (selectionTransparent (colors m)) = false)).
  - intros c m H. destruct c as [theme|slot|key value|bg fg v]; cbn [call].
    + apply selection_translucent_after_setTheme.
    + destruct slot as [slot|].
      * unfold restoreColor.
        destruct (Nat.eqb slot FOREGROUND);
          [|destruct (Nat.eqb slot BACKGROUND);
            [|destruct (Nat.eqb slot CURSOR)]]; cbn; exact H.
      * rewrite restoreColor_all. cbn. exact H.
    + destruct (onOptionsChange_frame key value m) as (-> & _). exact H.
    + exact H.
  - reflexivity.
Qed.

(** *** [onOptionsChange] *)

(** X15.  A change of the [allowTransparency] option re-resolves nothing and
    clears nothing: colours, cache and snapshot stay.  It decides how the
    next theme is read: a translucent foreground is then accepted, under the
    string the theme wrote, if the new value is truthy, and replaced by the
    default foreground if not. *)
Theorem allowTransparency_applies_to_next_theme value theme m s r :
  engine s = Some r -> u8 (data3 (rendered r)) <> 0xFF ->
  Theme.foreground theme = Some s ->
  let m1 := snd (onOptionsChange "allowTransparency" value m) in
  let fg := foreground (colors (snd (setTheme theme m1))) in
  colors m1 = colors m /\ contrastCache m1 = contrastCache m /\
  _restoreColors m1 = _restoreColors m /\
  (truthy value = true ->
     css fg = s /\
     fst (_parseColor (Some s) (Some DEFAULT_FOREGROUND) (Some true) m)
     = Normal (Fresh fg)) /\
  (truthy value = false -> fg = DEFAULT_FOREGROUND).
Proof.
  intros He Ha Hfg m1 fg. apply Z.eqb_neq in Ha.
  split; [reflexivity|]. split; [reflexivity|]. split; [reflexivity|].
  assert (E : fg = pick DEFAULT_FOREGROUND (parsed (Some s) (truthy value))).
  { unfold fg. destruct (setTheme_plain_roles theme m1) as (H & _).
    rewrite H, Hfg. reflexivity. }
  split; intros Hv; rewrite E, Hv.
  - rewrite parse_fst_defined. cbn [effective].
    unfold parsed, verdict. rewrite He; cbv zeta. rewrite Ha. cbn. auto.
  - unfold parsed, verdict. rewrite He; cbv zeta. rewrite Ha. reflexivity.
Qed.

(** *** Themes and the state before them *)

(** X16.  The empty theme, on any manager: [setTheme] returns; foreground,
    background, cursor, cursorAccent and both selection colours are the
    defaults, [selectionForeground] is absent, the palette slots 0 to 15
    hold their defaults; the slots from 16 on hold what they held before. *)
Theorem empty_theme_defaults m :
  let c := colors (snd (setTheme Theme.empty m)) in
  fst (setTheme Theme.empty m) = Normal tt /\
  foreground c = DEFAULT_FOREGROUND /\ background c = DEFAULT_BACKGROUND /\
  cursor c = DEFAULT_CURSOR /\ cursorAccent c = DEFAULT_CURSOR_ACCENT /\
  selectionTransparent c = DEFAULT_SELECTION /\
  selectionOpaque c = blend DEFAULT_BACKGROUND DEFAULT_SELECTION /\
  selectionForeground c = None /\
  (forall i, (i < 16)%nat -> js_get (ansi c) i = DEFAULT_ANSI_COLORS_at i) /\
  (forall i, (16 <= i)%nat -> js_get (ansi c) i = js_get (ansi (colors m)) i).
Proof.
  intros c.
  assert (Hret : fst (setTheme Theme.empty m) = Normal tt).
  { apply setTheme_returns_small. intros ext H; discriminate. }
  assert (Hc : c = fst (themed Theme.empty (allowTransparency m) (colors m)))
    by apply setTheme_colors.
  destruct (setTheme_assigned Theme.empty m Hret) as (Hnamed & Hrest).
  fold c in Hnamed, Hrest.
  split; [exact Hret|].
  repeat (split; [rewrite Hc; reflexivity|]).
  split.
  - intros i Hi.
    assert (Hin : In (i, @None string)
                    (map (fun i => (i, None)) (seq 0 16)))
      by (apply (in_map (fun i => (i, @None string))), in_seq; lia).
    rewrite (Hnamed i None Hin), parse_eq. reflexivity.
  - intros i Hi. apply Hrest, assignments_named_only; [reflexivity | exact Hi].
Qed.

Lemma write_all_overwrites a todo : forall l1 l2,
  NoDup (map fst todo) ->
  snd (write_all a todo l1) = snd (write_all a todo l2) /\
  forall i, In i (map fst todo) -> snd (write_all a todo l1) = true ->
    nth_error (fst (write_all a todo l1)) i
    = nth_error (fst (write_all a todo l2)) i.
Proof.
  intros l1 l2 Hnd.
  assert (Hsnd : snd (write_all a todo l1) = snd (write_all a todo l2)).
  { destruct (snd (write_all a todo l1)) eqn:E1,
             (snd (write_all a todo l2)) eqn:E2; try reflexivity.
    - apply (proj1 (write_all_fails a todo l2)) in E2.
      apply (proj2 (write_all_fails a todo l1)) in E2. congruence.
    - apply (proj1 (write_all_fails a todo l1)) in E1.
      apply (proj2 (write_all_fails a todo l2)) in E1. congruence. }
  split; [exact Hsnd|].
  intros i Hi Hdone. apply in_map_iff in Hi. destruct Hi as ([j input] & <- & Hi).
  cbn [fst].
  destruct (write_all_value a todo l1 j input Hnd Hdone Hi) as (v1 & Hv1 & ->).
  rewrite Hsnd in Hdone.
  destruct (write_all_value a todo l2 j input Hnd Hdone Hi) as (v2 & Hv2 & ->).
  congruence.
Qed.

(** X17.  A theme with an [extendedAnsi] list of at most 240 entries
    determines the whole colour set: applied to two managers with the same
    [allowTransparency], each with a palette of 256 slots, it leaves the
    same colours in both, whatever they held before. *)
Theorem extended_theme_forgets_history theme ext m1 m2 :
  Theme.extendedAnsi theme = Some ext -> (List.length ext <= 240)%nat ->
  allowTransparency m1 = allowTransparency m2 ->
  List.length (ansi (colors m1)) = 256%nat ->
  List.length (ansi (colors m2)) = 256%nat ->
  colors (snd (setTheme theme m1)) = colors (snd (setTheme theme m2)).
Proof.
  intros Hext Hlen Ha H1 H2.
  rewrite !setTheme_colors. unfold themed. cbn [fst]. rewrite <- Ha.
  set (a := allowTransparency m1).
  assert (Hin : within_palette (Call_setTheme theme))
    by (cbn [within_palette]; rewrite Hext; exact Hlen).
  pose proof (assignments_within theme Hin) as Hidx.
  destruct (write_all_within a (assignments theme) _ Hidx H1) as (L1 & D1).
  destruct (write_all_within a (assignments theme) _ Hidx H2) as (L2 & D2).
  assert (E : fst (write_all a (assignments theme) (ansi (colors m1)))
              = fst (write_all a (assignments theme) (ansi (colors m2)))).
  { apply nth_error_ext. intros i.
    destruct (Nat.lt_ge_cases i 256) as [Hi|Hi].
    - apply (write_all_overwrites a (assignments theme) _ _
               (assignments_NoDup theme)); [|exact D1].
      unfold assignments, extended_assignments. rewrite Hext.
      rewrite map_app, map_map. cbn [fst]. rewrite map_id.
      apply in_or_app.
      destruct (Nat.lt_ge_cases i 16) as [Hs|Hs].
      + left. change (In i (seq 0 16)). apply in_seq. lia.
      + right. apply in_seq. lia.
    - rewrite (proj2 (nth_error_None _ _)) by lia.
      rewrite (proj2 (nth_error_None _ _)) by lia. reflexivity. }
  rewrite E. reflexivity.
Qed.
End ColorManager.

(** ** The properties at concrete inputs

    The module run in the concrete environment: a manager constructed with
    [allowTransparency] off. *)

(** C1, counterexample.  The renderer has cached a contrast result;
    [restoreColor], with or without a slot, returns with the entry still in
    the cache. *)
Lemma cache_survives_restoreColor :
  let m0 := constructed sample_toColor sample_toCss sample_blend
              fresh_context false in
  let white := {| css := "#ffffff"; rgba := 0xFFFFFFFF |} in
  let after := fun slot =>
    fst (run sample_toColor sample_toCss sample_blend sample_engine
           SAMPLE_FOREGROUND SAMPLE_BACKGROUND SAMPLE_CURSOR
           [Renderer_caches 0xFF 0xFFFFFFFF white; Call_restoreColor slot]
           m0 m0) in
  contrastCache (after None) = [((0xFF, 0xFFFFFFFF), white)] /\
  contrastCache (after (Some 1%nat)) = [((0xFF, 0xFFFFFFFF), white)] /\
  contrastCache (after None) <> [].
Proof.
  vm_compute. repeat split; discriminate.
Qed.

(** C1, witness: the renderer has cached a contrast result and a theme is
    applied. *)
Lemma cache_cleared_witness :
  let white := {| css := "#ffffff"; rgba := 0xFFFFFFFF |} in
  let m := with_contrastCache (cache_set 0xFF 0xFFFFFFFF white)
             (constructed sample_toColor sample_toCss sample_blend
                fresh_context false) in
  contrastCache m = [((0xFF, 0xFFFFFFFF), white)] /\
  contrastCache
    (snd (setTheme sample_toColor sample_toCss sample_blend sample_engine
            (selection_theme "#ffffff") m)) = [].
Proof.
  intros white m. split; [reflexivity|].
  apply (proj1 (cache_cleared_by_setTheme sample_toColor sample_toCss
                  sample_blend sample_engine SAMPLE_FOREGROUND
                  SAMPLE_BACKGROUND SAMPLE_CURSOR)).
  vm_compute. reflexivity.
Defined.

(** C2, witness: slot 100 is [#878700], slot 255 is [#eeeeee]. *)
Lemma default_palette_witness :
  nth_error (DEFAULT_ANSI_COLORS sample_toColor sample_toCss) 100
  = Some {| css := "#878700"; rgba := 0x878700FF |} /\
  nth_error (DEFAULT_ANSI_COLORS sample_toColor sample_toCss) 255
  = Some {| css := "#eeeeee"; rgba := 0xEEEEEEFF |}.
Proof.
  destruct (default_palette_documented sample_toColor sample_toCss)
    as (_ & Hcube & Hgrey).
  split.
  - apply (Hcube 100). lia.
  - apply (Hgrey 255). lia.
Defined.

(** C3, counterexample.  A theme with 241 extended colours is applied to a
    new manager: [setTheme] returns and the palette has 257 entries.
    [restoreColor(300)] on a new manager leaves a palette of 301 entries. *)
Lemma palette_grows_past_256 :
  let m0 := constructed sample_toColor sample_toCss sample_blend
              fresh_context false in
  let r := setTheme sample_toColor sample_toCss sample_blend sample_engine
             (extended_theme (repeat "#123456"%string 241)) m0 in
  fst r = Normal tt /\
  List.length (ansi (colors m0)) = 256%nat /\
  List.length (ansi (colors (snd r))) = 257%nat /\
  js_get (ansi (colors (snd r))) 256
  = Some {| css := "#123456"; rgba := 0x123456FF |} /\
  List.length
    (ansi (colors (snd (restoreColor SAMPLE_FOREGROUND SAMPLE_BACKGROUND
                          SAMPLE_CURSOR (Some 300%nat) m0)))) = 301%nat.
Proof.
  vm_compute. repeat split; reflexivity.
Qed.

(** C3, witness: a theme with one extended colour, a full restore and the
    restore of the background. *)
Lemma palette_size_witness :
  let m0 := constructed sample_toColor sample_toCss sample_blend
              fresh_context false in
  let calls :=
    [ Call_setTheme (extended_theme ["#123456"%string]);
      Call_restoreColor None;
      Call_restoreColor (Some 257%nat) ] in
  constructor sample_toColor sample_toCss sample_blend (Some fresh_context)
    false = Normal m0 /\
  Forall (within_palette SAMPLE_FOREGROUND SAMPLE_BACKGROUND SAMPLE_CURSOR)
    calls /\
  List.length
    (ansi (colors (fst (run sample_toColor sample_toCss sample_blend
                          sample_engine SAMPLE_FOREGROUND SAMPLE_BACKGROUND
                          SAMPLE_CURSOR calls m0 m0)))) = 256%nat.
Proof.
  intros m0 calls.
  assert (Hin : Forall (within_palette SAMPLE_FOREGROUND SAMPLE_BACKGROUND
                          SAMPLE_CURSOR) calls).
  { unfold calls. constructor; [cbn; lia|].
    constructor; [exact I|].
    constructor; [right; right; left; reflexivity | constructor]. }
  split; [reflexivity|]. split; [exact Hin|].
  exact (proj2 (proj2 (palette_size sample_toColor sample_toCss sample_blend
                         sample_engine SAMPLE_FOREGROUND SAMPLE_BACKGROUND
                         SAMPLE_CURSOR (Some fresh_context) false m0 calls
                         eq_refl)) Hin).
Defined.

(** C4, witness: [setTheme({selection: "#ffffff"})]. *)
Lemma opaque_selection_witness :
  let m0 := constructed sample_toColor sample_toCss sample_blend
              fresh_context false in
  let white := {| css := "#ffffff"; rgba := 0xFFFFFFFF |} in
  fst (_parseColor sample_engine (Some "#ffffff"%string)
         (Some DEFAULT_SELECTION) (Some true) m0) = Normal (Fresh white) /\
  selectionTransparent
    (colors (snd (setTheme sample_toColor sample_toCss sample_blend
                    sample_engine (selection_theme "#ffffff") m0)))
  = {| css := "#ffffff4d"; rgba := 0xFFFFFF4D |}.
Proof.
  intros m0 white.
  assert (Hp : fst (_parseColor sample_engine (Some "#ffffff"%string)
                      (Some DEFAULT_SELECTION) (Some true) m0)
               = Normal (Fresh white)) by (vm_compute; reflexivity).
  split; [exact Hp|].
  destruct (opaque_selection_made_translucent sample_toColor sample_toCss
              sample_blend sample_engine (selection_theme "#ffffff") m0
              "#ffffff" white eq_refl Hp eq_refl) as (E & _).
  rewrite E. vm_compute. reflexivity.
Defined.

(** C5, witness: a string the engine rejects, and a translucent colour
    while transparency is off. *)
Lemma parseColor_falls_back_witness :
  let m0 := constructed sample_toColor sample_toCss sample_blend
              fresh_context false in
  let black := {| css := "#000000"; rgba := 0xFF |} in
  _parseColor sample_engine (Some "not-a-color"%string) (Some black) None m0
  = (Normal Fallback,
     with_console (cons "Color: not-a-color is invalid using fallback #000000"%string)
       (with_ctx (fun c => mkCtx FS_litmus (pixel c)) m0)) /\
  fst (_parseColor sample_engine (Some "rgba(255, 255, 255, 0.3)"%string)
         (Some black) None m0) = Normal Fallback.
Proof.
  intros m0 black. split.
  - reflexivity.
  - apply (proj1 (proj2 (proj2 (parseColor_falls_back sample_engine)))
             "rgba(255, 255, 255, 0.3)"%string translucent_white black None m0).
    + reflexivity.
    + vm_compute. discriminate.
    + reflexivity.
Defined.

(** C6, witness: an upper-case [#AABBCC] comes back as the engine's
    [#aabbcc]. *)
Lemma parseColor_opaque_witness :
  fst (_parseColor sample_engine (Some "#AABBCC"%string) None None
         (constructed sample_toColor sample_toCss sample_blend
            fresh_context false))
  = Normal (Fresh {| css := "#aabbcc"; rgba := 0xAABBCCFF |}).
Proof.
  apply (parseColor_opaque sample_engine "#AABBCC"
           {| serialized := "#aabbcc"; rendered := mkData xaa xbb xcc xff |}
           None None _ eq_refl eq_refl).
Defined.



(** C8, the code at the failing input.  A theme with 241 extended colours
    whose last one the engine rejects: instead of warning and falling back,
    [setTheme] throws a [TypeError] at slot 256, after slot 16 has been
    given its colour and before the snapshot is taken anew;
    [restoreColor()] then puts the default back into slot 16, not the
    colour the slot held when that latest [setTheme] call ended. *)
Lemma restoreColor_after_failed_setTheme :
  let m0 := constructed sample_toColor sample_toCss sample_blend
              fresh_context false in
  let theme := extended_theme (repeat "#123456"%string 240 ++ ["nope"%string]) in
  let r1 := setTheme sample_toColor sample_toCss sample_blend sample_engine
              theme m0 in
  let m2 := snd (restoreColor SAMPLE_FOREGROUND SAMPLE_BACKGROUND
                   SAMPLE_CURSOR None (snd r1)) in
  fst r1
  = Throw "TypeError: Cannot read properties of undefined (reading 'css')" /\
  js_get (ansi (colors (snd r1))) 16
  = Some {| css := "#123456"; rgba := 0x123456FF |} /\
  js_get (ansi (colors m2)) 16 = Some {| css := "#000000"; rgba := 0xFF |} /\
  js_get (ansi (colors m2)) 16 <> js_get (ansi (colors (snd r1))) 16.
Proof.
  vm_compute. repeat split; try reflexivity. discriminate.
Qed.

(** An example of the above: a theme, a single-slot restore and a cached
    contrast result, then [restoreColor()]. *)
Lemma restoreColor_witness :
  let m0 := constructed sample_toColor sample_toCss sample_blend
              fresh_context false in
  let calls :=
    [ Call_setTheme (extended_theme ["#123456"%string]);
      Call_restoreColor (Some 16%nat);
      Renderer_caches 0 0xFF {| css := "#ffffff"; rgba := 0xFFFFFFFF |} ] in
  let st := run sample_toColor sample_toCss sample_blend sample_engine
              SAMPLE_FOREGROUND SAMPLE_BACKGROUND SAMPLE_CURSOR calls m0 m0 in
  constructor sample_toColor sample_toCss sample_blend (Some fresh_context)
    false = Normal m0 /\
  js_get (ansi (colors (snd (restoreColor SAMPLE_FOREGROUND SAMPLE_BACKGROUND
                               SAMPLE_CURSOR None (fst st))))) 16
  = js_get (ansi (colors (snd st))) 16.
Proof.
  intros m0 calls st. split; [reflexivity|].
  apply (restoreColor_restores_applied_palette sample_toColor sample_toCss
           sample_blend sample_engine SAMPLE_FOREGROUND SAMPLE_BACKGROUND
           SAMPLE_CURSOR (Some fresh_context) false m0 calls eq_refl).
  eapply Nat.lt_le_trans;
    [ | apply (restoreColor_restores_applied_palette sample_toColor
                 sample_toCss sample_blend sample_engine SAMPLE_FOREGROUND
                 SAMPLE_BACKGROUND SAMPLE_CURSOR (Some fresh_context) false
                 m0 calls eq_refl) ].
  repeat constructor.
Defined.

(** C9, the code at the failing input.  After a theme that set slot 16,
    the empty theme returns with slot 16 still holding that theme's colour,
    not the default [#000000] of the slot. *)
Lemma empty_theme_keeps_extended_palette :
  let m0 := constructed sample_toColor sample_toCss sample_blend
              fresh_context false in
  let m1 := snd (setTheme sample_toColor sample_toCss sample_blend
                   sample_engine (extended_theme ["#123456"%string]) m0) in
  let r2 := setTheme sample_toColor sample_toCss sample_blend sample_engine
              Theme.empty m1 in
  fst r2 = Normal tt /\
  js_get (ansi (colors (snd r2))) 16
  = Some {| css := "#123456"; rgba := 0x123456FF |} /\
  nth_error (DEFAULT_ANSI_COLORS sample_toColor sample_toCss) 16
  = Some {| css := "#000000"; rgba := 0xFF |}.
Proof.
  vm_compute. repeat split; reflexivity.
Qed.

(** ** The further properties at concrete inputs *)

(** X4, witness: the translucent white as foreground and as cursor, with
    transparency off. *)
Lemma transparency_by_role_witness :
  let m0 := constructed sample_toColor sample_toCss sample_blend
              fresh_context false in
  let c := colors (snd (setTheme sample_toColor sample_toCss sample_blend
                          sample_engine
                          (roles_theme "rgba(255, 255, 255, 0.3)") m0)) in
  u8 (data3 (rendered translucent_white)) <> 0xFF /\
  foreground c = DEFAULT_FOREGROUND sample_toColor /\
  css (cursor c) = "rgba(255, 255, 255, 0.3)"%string.
Proof.
  intros m0 c.
  assert (Ha : u8 (data3 (rendered translucent_white)) <> 0xFF)
    by (vm_compute; discriminate).
  destruct (transparency_by_role sample_toColor sample_toCss sample_blend
              sample_engine (roles_theme "rgba(255, 255, 255, 0.3)") m0
              "rgba(255, 255, 255, 0.3)" translucent_white eq_refl Ha eq_refl)
    as (Hfg & _ & Hcur & _).
  split; [exact Ha|]. split.
  - apply Hfg. reflexivity.
  - apply Hcur. reflexivity.
Defined.

(** X6, witness: a theme that sets black to [#123456]. *)
Lemma setTheme_palette_witness :
  let m0 := constructed sample_toColor sample_toCss sample_blend
              fresh_context false in
  let r := setTheme sample_toColor sample_toCss sample_blend sample_engine
             (black_theme "#123456") m0 in
  fst r = Normal tt /\
  js_get (ansi (colors (snd r))) 0
  = Some {| css := "#123456"; rgba := 0x123456FF |} /\
  js_get (ansi (colors (snd r))) 16 = js_get (ansi (colors m0)) 16.
Proof.
  intros m0 r.
  assert (Hret : fst r = Normal tt) by (vm_compute; reflexivity).
  destruct (setTheme_palette sample_toColor sample_toCss sample_blend
              sample_engine (black_theme "#123456") m0 Hret)
    as (Hnamed & _ & _ & Hrest).
  split; [exact Hret|]. split.
  - unfold r. rewrite (Hnamed 0%nat (Some "#123456"%string))
      by (left; reflexivity).
    vm_compute. reflexivity.
  - apply Hrest; [reflexivity | lia].
Defined.

(** X7, witness: a theme with one extended colour. *)
Lemma setTheme_returns_witness :
  let m0 := constructed sample_toColor sample_toCss sample_blend
              fresh_context false in
  let r := setTheme sample_toColor sample_toCss sample_blend sample_engine
             (extended_theme ["#123456"%string]) m0 in
  fst r = Normal tt /\ contrastCache (snd r) = [] /\
  Restore.ansi (_restoreColors (snd r)) = ansi (colors (snd r)).
Proof.
  intros m0 r.
  destruct (setTheme_returns_within_palette sample_toColor sample_toCss
           sample_blend sample_engine SAMPLE_FOREGROUND SAMPLE_BACKGROUND
           SAMPLE_CURSOR (extended_theme ["#123456"%string]) m0)
    as (Hret & Hcache & _ & _ & _ & Hsnap).
  - intros ext H. injection H as <-. cbn. lia.
  - auto.
Defined.

(** X10, witness: after a theme with a selection colour, the restore of the
    foreground slot 256. *)
Lemma restoreColor_special_slots_witness :
  let m0 := constructed sample_toColor sample_toCss sample_blend
              fresh_context false in
  let st := run sample_toColor sample_toCss sample_blend sample_engine
              SAMPLE_FOREGROUND SAMPLE_BACKGROUND SAMPLE_CURSOR
              [Call_setTheme (selection_theme "#ffffff")] m0 m0 in
  constructor sample_toColor sample_toCss sample_blend (Some fresh_context)
    false = Normal m0 /\
  colors (snd (restoreColor SAMPLE_FOREGROUND SAMPLE_BACKGROUND SAMPLE_CURSOR
                 (Some SAMPLE_FOREGROUND) (fst st)))
  = put_foreground (foreground (colors (snd st))) (colors (fst st)).
Proof.
  intros m0 st. split; [reflexivity|].
  assert (Hfb : SAMPLE_FOREGROUND <> SAMPLE_BACKGROUND)
    by (apply Nat.eqb_neq; reflexivity).
  assert (Hfc : SAMPLE_FOREGROUND <> SAMPLE_CURSOR)
    by (apply Nat.eqb_neq; reflexivity).
  assert (Hbc : SAMPLE_BACKGROUND <> SAMPLE_CURSOR)
    by (apply Nat.eqb_neq; reflexivity).
  destruct (restoreColor_special_slots sample_toColor sample_toCss
              sample_blend sample_engine SAMPLE_FOREGROUND SAMPLE_BACKGROUND
              SAMPLE_CURSOR (Some fresh_context) false m0
              [Call_setTheme (selection_theme "#ffffff")] eq_refl
              Hfb Hfc Hbc) as (H & _).
  exact H.
Defined.

(** X11, witness: after a theme with a selection colour, the restore of
    palette slot 5. *)
Lemma restoreColor_palette_slot_witness :
  let m0 := constructed sample_toColor sample_toCss sample_blend
              fresh_context false in
  let st := run sample_toColor sample_toCss sample_blend sample_engine
              SAMPLE_FOREGROUND SAMPLE_BACKGROUND SAMPLE_CURSOR
              [Call_setTheme (selection_theme "#ffffff")] m0 m0 in
  constructor sample_toColor sample_toCss sample_blend (Some fresh_context)
    false = Normal m0 /\
  colors (snd (restoreColor SAMPLE_FOREGROUND SAMPLE_BACKGROUND SAMPLE_CURSOR
                 (Some 5%nat) (fst st)))
  = put_ansi 5 (js_get (ansi (colors (snd st))) 5) (colors (fst st)).
Proof.
  intros m0 st. split; [reflexivity|].
  apply (restoreColor_palette_slot sample_toColor sample_toCss sample_blend
           sample_engine SAMPLE_FOREGROUND SAMPLE_BACKGROUND SAMPLE_CURSOR
           (Some fresh_context) false m0
           [Call_setTheme (selection_theme "#ffffff")] 5%nat eq_refl);
    [ vm_compute; discriminate | apply Nat.eqb_neq; reflexivity .. ].
Defined.

(** X13, witness: [restoreColor()] right after a theme with a selection
    colour. *)
Lemma restoreColor_after_setTheme_witness :
  let m0 := constructed sample_toColor sample_toCss sample_blend
              fresh_context false in
  let r := setTheme sample_toColor sample_toCss sample_blend sample_engine
             (selection_theme "#ffffff") m0 in
  fst r = Normal tt /\
  colors (snd (restoreColor SAMPLE_FOREGROUND SAMPLE_BACKGROUND SAMPLE_CURSOR
                 None (snd r)))
  = colors (snd r).
Proof.
  intros m0 r.
  assert (Hret : fst r = Normal tt) by (vm_compute; reflexivity).
  split; [exact Hret|].
  apply (restoreColor_after_setTheme sample_toColor sample_toCss sample_blend
           sample_engine SAMPLE_FOREGROUND SAMPLE_BACKGROUND SAMPLE_CURSOR
           (selection_theme "#ffffff") m0 None Hret I).
Defined.

(** X14, witness: after a theme with an opaque selection colour. *)
Lemma selection_never_opaque_witness :
  let m0 := constructed sample_toColor sample_toCss sample_blend
              fresh_context false in
  constructor sample_toColor sample_toCss sample_blend (Some fresh_context)
    false = Normal m0 /\
  isOpaque
    (selectionTransparent
       (colors (fst (run sample_toColor sample_toCss sample_blend
                       sample_engine SAMPLE_FOREGROUND SAMPLE_BACKGROUND
                       SAMPLE_CURSOR
                       [Call_setTheme (selection_theme "#ffffff")] m0 m0))))
  = false.
Proof.
  intros m0. split; [reflexivity|].
  apply (selection_never_opaque sample_toColor sample_toCss sample_blend
           sample_engine SAMPLE_FOREGROUND SAMPLE_BACKGROUND SAMPLE_CURSOR
           (Some fresh_context) false m0
           [Call_setTheme (selection_theme "#ffffff")] eq_refl).
Defined.

(** X15, witness: transparency is switched on, then the translucent white
    is given as foreground. *)
Lemma allowTransparency_witness :
  let m0 := constructed sample_toColor sample_toCss sample_blend
              fresh_context false in
  let m1 := snd (onOptionsChange "allowTransparency" (any_boolean true) m0) in
  u8 (data3 (rendered translucent_white)) <> 0xFF /\
  colors m1 = colors m0 /\
  css (foreground
         (colors (snd (setTheme sample_toColor sample_toCss sample_blend
                         sample_engine
                         (roles_theme "rgba(255, 255, 255, 0.3)") m1))))
  = "rgba(255, 255, 255, 0.3)"%string.
Proof.
  intros m0 m1.
  assert (Ha : u8 (data3 (rendered translucent_white)) <> 0xFF)
    by (vm_compute; discriminate).
  destruct (allowTransparency_applies_to_next_theme sample_toColor
              sample_toCss sample_blend sample_engine (any_boolean true)
              (roles_theme "rgba(255, 255, 255, 0.3)") m0
              "rgba(255, 255, 255, 0.3)" translucent_white eq_refl Ha eq_refl)
    as (Hcolors & _ & _ & Hyes & _).
  split; [exact Ha|]. split; [exact Hcolors|].
  apply Hyes. reflexivity.
Defined.

(** X17, witness: a theme with one extended colour, on a new manager and
    on one that had a selection colour set. *)
Lemma extended_theme_forgets_history_witness :
  let m0 := constructed sample_toColor sample_toCss sample_blend
              fresh_context false in
  let m1 := snd (setTheme sample_toColor sample_toCss sample_blend
                   sample_engine (selection_theme "#ffffff") m0) in
  List.length (ansi (colors m0)) = 256%nat /\
  List.length (ansi (colors m1)) = 256%nat /\
  colors (snd (setTheme sample_toColor sample_toCss sample_blend
                 sample_engine (extended_theme ["#123456"%string]) m0))
  = colors (snd (setTheme sample_toColor sample_toCss sample_blend
                   sample_engine (extended_theme ["#123456"%string]) m1)).
Proof.
  intros m0 m1.
  assert (H0 : List.length (ansi (colors m0)) = 256%nat)
    by (vm_compute; reflexivity).
  assert (H1 : List.length (ansi (colors m1)) = 256%nat)
    by (vm_compute; reflexivity).
  split; [exact H0|]. split; [exact H1|].
  apply (extended_theme_forgets_history sample_toColor sample_toCss
           sample_blend sample_engine SAMPLE_FOREGROUND SAMPLE_BACKGROUND
           SAMPLE_CURSOR (extended_theme ["#123456"%string])
           ["#123456"%string] m0 m1 eq_refl);
    [cbn; lia | reflexivity | exact H0 | exact H1].
Defined.
